(** * sgs_zhulu_105: a screen-automation script, embedded and verified

    The script drives a game through a fixed cycle of screens.  It captures
    the screen, looks for a template picture with OpenCV, and clicks where the
    template was found.  This development embeds the four functions of
    [sgs_zhulu_105.py] and proves properties of their control flow.

    Conventions of the embedding:
    - Python [float] values (confidences, thresholds, scale factors, click
      offsets) are rationals [Q]; rounding of binary floating point is not
      modelled.  Comparisons of floats are exact in the program too.  The
      products [width * offset[0]] and [height * offset[1]] are exact here and
      rounded to a double in the program before [int] truncates them, so the
      two can differ by a pixel where the rounding crosses an integer.  What
      is proved of click points is a bound that rounding preserves, or an
      instance whose products are exact in binary floating point.
      Pixel coordinates, retry counters and durations are [Z].
    - OpenCV, PyAutoGUI, [datetime] and [os.path] are collaborators of the
      script and not part of it: they are the fields of a [Platform], and every
      result holds for every platform.
    - The observable behaviour is the list of collaborator calls (the trace)
      together with the files on disk. *)

From Stdlib Require Import ZArith QArith Qround List Lia.
From stdpp Require Import gmap strings.
Import ListNotations.

Open Scope Z_scope.

(** ** Data model *)

(** A single-channel picture, as [cv2.imread(_, IMREAD_GRAYSCALE)] yields it:
    rows of pixel intensities. *)
Definition GrayImage : Type := list (list Z).

(** A three-channel picture handed over as an [ndarray]. *)
Definition BGRImage : Type := list (list (Z * Z * Z)).

(** [img.shape[0]] is the number of rows, [img.shape[1]] the number of
    columns. *)
Definition shape0 (img : GrayImage) : Z := Z.of_nat (length img).
Definition shape1 (img : GrayImage) : Z :=
  match img with
  | [] => 0
  | row :: _ => Z.of_nat (length row)
  end.

(** The correlation surface computed by [cv2.matchTemplate]. *)
Definition Surface : Type := list (list Q).

(** [(x, y, width, height)], the value of [best_match] when it is not
    [None]. *)
Definition Region : Type := Z * Z * Z * Z.

(** An [image] or [template] argument is a path or a loaded picture. *)
Inductive ImageArg : Type :=
| Path (p : string)
| Loaded (a : BGRImage).

(** What the script prints. *)
Inductive Message : Type :=
| MsgClicked (click_x click_y : Z) (best_confidence : Q)
| MsgNoMatch (best_confidence : Q)
| MsgEnterTeamFailed
| MsgEnterStage
| MsgStartBattleFailed
| MsgNoStamina
| MsgStartBattle
| MsgBattleSucceeded
| MsgBattleFailed
| MsgClickContinueFailed
| MsgClickReturnFailed
| MsgNextLoop.

(** The calls the script makes on its collaborators. *)
Inductive Event : Type :=
| Screenshot                 (* pyautogui.screenshot() *)
| Save (path : string)       (* screenshot.save(path) *)
| MoveTo (x y : Z)           (* pyautogui.moveTo(x, y, duration=0.5, ...) *)
| Click                      (* pyautogui.click() *)
| Sleep (seconds : Z)        (* time.sleep(seconds) *)
| Print (m : Message).       (* print(...) *)

(** The collaborators.  The game reacts to what the script did so far, so the
    screen and the clock are functions of the trace.  [cv2_resize] and
    [cv2_matchTemplate] answer [None] when OpenCV raises [cv2.error] (an empty
    destination size, a template larger than the image). *)
Record Platform : Type := {
  cv2_cvtColor : BGRImage -> GrayImage;
  cv2_resize : GrayImage -> Q -> Q -> option GrayImage;
  cv2_matchTemplate : GrayImage -> GrayImage -> option Surface;
  cv2_minMaxLoc : Surface -> Q * Q * (Z * Z) * (Z * Z);
  (* the capture, as it reads back from the file it is saved to *)
  screen : list Event -> GrayImage;
  (* datetime.datetime.now(), in microseconds *)
  clock : list Event -> Z;
  os_path_join : string -> string -> string
}.

(** The result of a call that may raise [cv2.error]. *)
Inductive Exc (A : Type) : Type :=
| Value (a : A)
| Cv2Error.
Arguments Value {A} a.
Arguments Cv2Error {A}.

Definition exc_bind {A B : Type} (c : Exc A) (k : A -> Exc B) : Exc B :=
  match c with
  | Value a => k a
  | Cv2Error => Cv2Error
  end.

(** OpenCV raises on a missing ([None]) picture and when the call itself
    fails. *)
Definition checked {A B : Type} (f : A -> option B) (arg : option A) : Exc B :=
  match arg with
  | None => Cv2Error
  | Some a => match f a with
              | None => Cv2Error
              | Some b => Value b
              end
  end.

(** Python comparisons on numbers. *)
Definition Qgeb (x y : Q) : bool := Qle_bool y x.          (* x >= y *)
Definition Qltb (x y : Q) : bool := negb (Qle_bool y x).   (* x < y *)
Definition Qgtb (x y : Q) : bool := Qltb y x.              (* x > y *)

(** [int(x)] on a float truncates towards zero. *)
Definition py_int (x : Q) : Z := Z.quot (Qnum x) (Z.pos (Qden x)).

(** Truthiness of [best_match]: a 4-tuple is true, [None] is false. *)
Definition truthy (best_match : option Region) : bool :=
  match best_match with
  | Some _ => true
  | None => false
  end.

(** ** Matcher *)

Section Matcher.
Context (P : Platform).

(** Lines 21-29: a path is read in grayscale (a file that cannot be read
    gives [None], without an exception), a loaded picture is converted. *)
Definition load_gray (fs : gmap string GrayImage) (a : ImageArg)
  : option GrayImage :=
  match a with
  | Path p => fs !! p
  | Loaded img => Some (cv2_cvtColor P img)
  end.

(** Lines 36-44, the body of the loop up to the comparison: the peak of the
    correlation surface at one scale, and the region it stands for. *)
Definition match_at_scale (image template : option GrayImage) (scale : Q)
  : Exc (Q * Region) :=
  exc_bind (checked (fun t => cv2_resize P t scale scale) template)
    (fun scaled_template =>
  exc_bind (checked (fun i => cv2_matchTemplate P i scaled_template) image)
    (fun result =>
  let '(_, max_val, _, max_loc) := cv2_minMaxLoc P result in
  Value (max_val,
         (fst max_loc, snd max_loc,
          shape1 scaled_template, shape0 scaled_template)))).

(** Lines 34-53: the loop over the scales, with its two variables. *)
Fixpoint scale_loop (image template : option GrayImage) (scales : list Q)
    (best_confidence : Q) (best_match : option Region)
  : Exc (Q * option Region) :=
  match scales with
  | [] => Value (best_confidence, best_match)
  | scale :: rest =>
      exc_bind (match_at_scale image template scale)
        (fun '(max_val, region) =>
           if Qgtb max_val best_confidence
           then scale_loop image template rest max_val (Some region)
           else scale_loop image template rest best_confidence best_match)
  end.

Definition multi_scale_template_matching (fs : gmap string GrayImage)
    (image template : ImageArg) (scales : list Q)
  : Exc (Q * option Region) :=
  let image := load_gray fs image in
  let template := load_gray fs template in
  scale_loop image template scales (-1) None.

End Matcher.

(** ** The world the script acts on *)

(** The files on disk, each as it reads back in grayscale, and the calls made
    so far.  A file is known by the path string it is read and written with:
    two different strings that name one file (through [./], letter case or a
    link) are two files here, so what is said of [files] holds for runs whose
    paths do not alias.  What is said of the [Save] calls in the trace does
    not depend on it. *)
Record World : Type := {
  files : gmap string GrayImage;
  trace : list Event
}.

(** The world after more calls that leave the files alone. *)
Definition after (w : World) (events : list Event) : World :=
  {| files := files w; trace := trace w ++ events |}.

(** The world after a capture saved to [path]: the file is overwritten with
    what the screen shows at that moment. *)
Definition captured (P : Platform) (path : string) (w : World) : World :=
  {| files := <[path := screen P (trace w)]> (files w);
     trace := trace w ++ [Screenshot; Save path] |}.

(** How a call ends: it returns, an uncaught [cv2.error] ends the process, or
    the embedding ran out of fuel (only loops that need not terminate take
    fuel). *)
Inductive Outcome (A : Type) : Type :=
| Returned (a : A) (w : World)
| Crashed (w : World)
| OutOfFuel.
Arguments Returned {A} a w.
Arguments Crashed {A} w.
Arguments OutOfFuel {A}.

Definition M (A : Type) : Type := World -> Outcome A.

Definition ret {A : Type} (a : A) : M A := fun w => Returned a w.

Definition bind {A B : Type} (c : M A) (k : A -> M B) : M B :=
  fun w =>
    match c w with
    | Returned a w' => k a w'
    | Crashed w' => Crashed w'
    | OutOfFuel => OutOfFuel
    end.

Declare Scope script_scope.
Delimit Scope script_scope with script.
Notation "'let*' x ':=' c 'in' k" := (bind c (fun x => k))
  (at level 10, x pattern, c at level 100, k at level 200) : script_scope.
Notation "c ;; k" := (bind c (fun _ => k))
  (at level 100, right associativity) : script_scope.

(** A collaborator call that only leaves a mark in the trace. *)
Definition emit (e : Event) : M unit :=
  fun w => Returned tt (after w [e]).

(** A pure OpenCV computation on the files of the current world. *)
Definition on_files {A : Type} (f : gmap string GrayImage -> Exc A) : M A :=
  fun w =>
    match f (files w) with
    | Value a => Returned a w
    | Cv2Error => Crashed w
    end.

Section Script.
Context (P : Platform).

(** [screenshot = pyautogui.screenshot(); screenshot.save(path)] *)
Definition capture_to (path : string) : M unit :=
  fun w => Returned tt (captured P path w).

(** [datetime.datetime.now()] *)
Definition now : M Z := fun w => Returned (clock P (trace w)) w.

(** ** Clicker *)

Definition locate_and_click (image_path template_path : string)
    (scales : list Q) (offset : Q * Q) (threshold : Q) : M bool :=
  (let* (best_confidence, best_match) :=
     on_files (fun fs => multi_scale_template_matching P fs
                           (Path image_path) (Path template_path) scales) in
   match best_match with
   | Some (x, y, width, height) =>
       if Qgeb best_confidence threshold then
         let x_offset := py_int (inject_Z width * fst offset) in
         let y_offset := py_int (inject_Z height * snd offset) in
         let click_x := x + x_offset in
         let click_y := y + y_offset in
         emit (MoveTo click_x click_y) ;;
         emit Click ;;
         emit (Print (MsgClicked click_x click_y best_confidence)) ;;
         ret true
       else
         emit (Print (MsgNoMatch best_confidence)) ;;
         ret false
   | None =>
       emit (Print (MsgNoMatch best_confidence)) ;;
       ret false
   end)%script.

(** ** Task runner *)

(** Lines 132-161.  The loop returns its verdict and the value of
    [retry_num] on exit.  Each iteration raises [retry_num] or returns, so
    [retry_times] iterations of fuel are always enough
    (see [run_click_loop_fuel]). *)
Fixpoint run_click_loop (fuel : nat) (image_path template_path : string)
    (scales : list Q) (click_offset : Q * Q) (threshold : Q)
    (retry_times delay : Z) (retry_num : Z) : M (bool * Z) :=
  if retry_num <? retry_times then
    match fuel with
    | O => fun _ => OutOfFuel
    | S fuel' =>
        (let* success := locate_and_click image_path template_path scales
                           click_offset threshold in
         emit (Sleep delay) ;;
         if negb success then
           run_click_loop fuel' image_path template_path scales click_offset
             threshold retry_times delay (retry_num + 1)
         else
           capture_to image_path ;;
           let* (best_confidence, best_match) :=
             on_files (fun fs => multi_scale_template_matching P fs
                                   (Path image_path) (Path template_path)
                                   scales) in
           if negb (truthy best_match) || Qltb best_confidence threshold
           then ret (true, retry_num)
           else
             run_click_loop fuel' image_path template_path scales
               click_offset threshold retry_times delay (retry_num + 1))%script
    end
  else ret (false, retry_num).

Definition run_click_task_counted (image_path template_path : string)
    (scales : list Q) (click_offset : Q * Q) (threshold : Q)
    (retry_times delay : Z) : M (bool * Z) :=
  (capture_to image_path ;;
   run_click_loop (Z.to_nat retry_times) image_path template_path scales
     click_offset threshold retry_times delay 0)%script.

Definition run_click_task (image_path template_path : string)
    (scales : list Q) (click_offset : Q * Q) (threshold : Q)
    (retry_times delay : Z) : M bool :=
  (let* (success, _) :=
     run_click_task_counted image_path template_path scales click_offset
       threshold retry_times delay in
   ret success)%script.

End Script.

(** ** Scenario controller *)

Section Scenario.
Context (P : Platform).

(** Lines 228-246: the loop that waits for the battle to end; it returns the
    value of [success] on exit.  [max_time_out] is in microseconds.  The loop
    ends only if the clock moves on, hence the fuel. *)
Fixpoint wait_battle (fuel : nat) (screenshot_file success_file : string)
    (scales : list Q) (confidence_threshold : Q) (max_time_out : Z)
  : M bool :=
  (let* t := now P in
   if t <? max_time_out then
     match fuel with
     | O => fun _ => OutOfFuel
     | S fuel' =>
         emit (Sleep 10) ;;
         capture_to P screenshot_file ;;
         let* (best_confidence, best_match) :=
           on_files (fun fs => multi_scale_template_matching P fs
                                 (Path screenshot_file) (Path success_file)
                                 scales) in
         if Qgeb best_confidence confidence_threshold then
           emit (Print MsgBattleSucceeded) ;;
           ret true
         else
           wait_battle fuel' screenshot_file success_file scales
             confidence_threshold max_time_out
     end
   else ret false)%script.

(** Lines 183-277.  Every [break] ends the function; the last line of the
    body starts the next round.  [fuel] bounds the rounds, and the
    iterations of each wait for a battle. *)
Fixpoint run_zhulu_105_task (fuel : nat)
    (image_path game_screenshot_path : string) (confidence_threshold : Q)
    (scales : list Q) (retry_times max_battle_time : Z) : M unit :=
  match fuel with
  | O => fun _ => OutOfFuel
  | S fuel' =>
      let screenshot_file := os_path_join P image_path game_screenshot_path in
      let template name := os_path_join P image_path name in
      (let* success :=
         run_click_task P screenshot_file (template "stage105.png") scales
           (3 # 4, 1 # 2)%Q confidence_threshold retry_times 2 in
       if negb success then emit (Print MsgEnterTeamFailed)
       else
         emit (Print MsgEnterStage) ;;
         let* success :=
           run_click_task P screenshot_file (template "teamselect.png")
             scales (9 # 10, 23 # 25)%Q confidence_threshold retry_times 3 in
         if negb success then emit (Print MsgStartBattleFailed)
         else
           emit (MoveTo 4 4) ;;
           let* (best_confidence, best_match) :=
             on_files (fun fs => multi_scale_template_matching P fs
                                   (Path screenshot_file)
                                   (Path (template "buystamina.png"))
                                   scales) in
           if Qgeb best_confidence confidence_threshold
           then emit (Print MsgNoStamina)
           else
             emit (Print MsgStartBattle) ;;
             let* t := now P in
             let max_time_out := t + max_battle_time * 1000000 in
             let* success :=
               wait_battle fuel' screenshot_file (template "success.png")
                 scales confidence_threshold max_time_out in
             if negb success then emit (Print MsgBattleFailed)
             else
               let* success :=
                 run_click_task P screenshot_file (template "success.png")
                   scales (1 # 2, 1 # 2)%Q confidence_threshold retry_times
                   2 in
               if negb success then emit (Print MsgClickContinueFailed)
               else
                 let* success :=
                   run_click_task P screenshot_file (template "return.png")
                     scales (1 # 2, 1 # 2)%Q confidence_threshold
                     retry_times 3 in
                 if negb success then emit (Print MsgClickReturnFailed)
                 else
                   emit (Print MsgNextLoop) ;;
                   run_zhulu_105_task fuel' image_path game_screenshot_path
                     confidence_threshold scales retry_times
                     max_battle_time)%script
  end.

End Scenario.

(** ** Notions used to state the properties *)

(** Plain single-scale matching, as the specification words it: the
    correlation surface of the image and the template as it is (no resizing),
    its peak, and the region of the template's own size at the peak. *)
Definition single_scale_template_matching (P : Platform)
    (fs : gmap string GrayImage) (image template : ImageArg)
  : Exc (Q * option Region) :=
  match load_gray P fs template with
  | None => Cv2Error
  | Some plain_template =>
      exc_bind
        (checked (fun i => cv2_matchTemplate P i plain_template)
           (load_gray P fs image))
        (fun result =>
           let '(_, max_val, _, max_loc) := cv2_minMaxLoc P result in
           Value (max_val,
                  Some (fst max_loc, snd max_loc,
                        shape1 plain_template, shape0 plain_template)))
  end.

(** Modelled from the spec: [cv2.resize] belongs to OpenCV, it is not code of
    the repository.  The specification says of it that "the returned region's
    width/height equal the original template's dimensions multiplied by s
    (rounded per the resize algorithm)".  A side of length [n] scaled by [s]
    becomes an integer [n'] less than 1 away from the product [n * s]; which
    rounding it is, is left to the resize algorithm. *)
Definition scaled_and_rounded (n : Z) (s : Q) (n' : Z) : Prop :=
  (inject_Z n * s - 1 < inject_Z n')%Q /\ (inject_Z n' < inject_Z n * s + 1)%Q.

(** Modelled from the spec: the resize of the platform follows that rule when
    it resizes the picture [t] by the factor [s] in both directions. *)
Definition resize_scales_sides (P : Platform) (t : GrayImage) (s : Q) : Prop :=
  forall t',
    cv2_resize P t s s = Some t' ->
    scaled_and_rounded (shape1 t) s (shape1 t') /\
    scaled_and_rounded (shape0 t) s (shape0 t').

(** Modelled from the spec: [cv2.resize] belongs to OpenCV, it is not code of
    the repository.  The specification says that "matching with scales=[1.0]
    reproduces plain single-scale correlation matching (no resizing artifacts
    introduced)": resizing the picture [t] by the factor 1.0 gives [t] back. *)
Definition unchanged_by_unit_resize (P : Platform) (t : GrayImage) : Prop :=
  cv2_resize P t 1 1 = Some t.

(** The events of a capture, and of the pointer. *)
Definition is_capture (e : Event) : bool :=
  match e with
  | Screenshot => true
  | Save _ => true
  | _ => false
  end.

Definition is_pointer (e : Event) : bool :=
  match e with
  | MoveTo _ _ => true
  | Click => true
  | _ => false
  end.

(** One iteration of the wait for the battle leaves these events. *)
Definition poll_events (screenshot_file : string) : list Event :=
  [Sleep 10; Screenshot; Save screenshot_file].

Fixpoint polls (n : nat) (screenshot_file : string) : list Event :=
  match n with
  | O => []
  | S n' => poll_events screenshot_file ++ polls n' screenshot_file
  end.

(** The world [n] iterations of the wait later, when none of them found the
    success screen: each one slept 10 seconds and saved a capture to the
    screenshot file. *)
Fixpoint after_polls (P : Platform) (screenshot_file : string) (n : nat)
    (w : World) : World :=
  match n with
  | O => w
  | S n' =>
      after_polls P screenshot_file n'
        (captured P screenshot_file (after w [Sleep 10]))
  end.

(** The calls of a click made for the region [r] found with confidence [c]:
    the pointer goes to the corner of the region plus the truncated offsets. *)
Definition click_events (offset : Q * Q) (r : Region) (c : Q) : list Event :=
  let '(x, y, width, height) := r in
  let click_x := x + py_int (inject_Z width * fst offset) in
  let click_y := y + py_int (inject_Z height * snd offset) in
  [MoveTo click_x click_y; Click; Print (MsgClicked click_x click_y c)].

(** An attempt of the task runner that raises [retry_num]: the click was not
    made, or it was made and the fresh capture still shows the template. *)
Section Attempts.
Context (P : Platform) (image_path template_path : string)
  (scales : list Q) (click_offset : Q * Q) (threshold : Q) (delay : Z).

Inductive unsuccessful_attempt : World -> World -> Prop :=
| click_not_made (w w1 : World) :
    locate_and_click P image_path template_path scales click_offset
      threshold w = Returned false w1 ->
    unsuccessful_attempt w (after w1 [Sleep delay])
| click_without_effect (w w1 : World) (c : Q) (r : Region) :
    locate_and_click P image_path template_path scales click_offset
      threshold w = Returned true w1 ->
    multi_scale_template_matching P
      (files (captured P image_path (after w1 [Sleep delay])))
      (Path image_path) (Path template_path) scales = Value (c, Some r) ->
    (threshold <= c)%Q ->
    unsuccessful_attempt w (captured P image_path (after w1 [Sleep delay])).

Inductive unsuccessful_attempts : nat -> World -> World -> Prop :=
| attempts_none (w : World) : unsuccessful_attempts 0 w w
| attempts_more (n : nat) (w w1 w2 : World) :
    unsuccessful_attempt w w1 ->
    unsuccessful_attempts n w1 w2 ->
    unsuccessful_attempts (S n) w w2.

End Attempts.

(** "The success template does not match in time", for the wait that begins
    in the world [w] with the given deadline (microseconds).  The files are
    those of [w] with the capture written over the screenshot file. *)
Section InTime.
Context (P : Platform) (w : World) (screenshot_file success_file : string)
  (scales : list Q) (threshold : Q) (max_time_out : Z).

Definition below_threshold (capture : GrayImage) : Prop :=
  exists c m,
    multi_scale_template_matching P
      (<[screenshot_file := capture]> (files w))
      (Path screenshot_file) (Path success_file) scales = Value (c, m) /\
    (c < threshold)%Q.

(** No capture taken while the clock is before the deadline matches. *)
Definition no_match_before_deadline : Prop :=
  forall later : list Event,
    let t := trace w ++ later in
    clock P t < max_time_out -> below_threshold (screen P t).

End InTime.

(** The clock moves on by at least the time slept, and does not run backwards
    while a capture is taken. *)
Definition clock_advances (P : Platform) : Prop :=
  (forall t, clock P t + 10 * 1000000 <= clock P (t ++ [Sleep 10])) /\
  (forall t path, clock P t <= clock P (t ++ [Screenshot; Save path])).

(** ** A deterministic stand-in platform

    A small game and a small matcher, to run the script on concrete inputs.
    Pictures are 2 x 2.  The matcher slides the template over the image and
    scores each window with the normalised correlation coefficient where that
    is 1, -1 or 0, and with 0 as a stand-in for every value in between. *)
Module Fake.

Definition stage_pic : GrayImage := [[10; 200]; [30; 40]].
Definition team_pic : GrayImage := [[50; 60]; [210; 80]].
Definition stamina_pic : GrayImage := [[90; 100]; [110; 220]].
Definition battle_pic : GrayImage := [[230; 20]; [25; 35]].
Definition success_pic : GrayImage := [[45; 240]; [55; 65]].
Definition return_pic : GrayImage := [[75; 85]; [250; 95]].

Definition negative (img : GrayImage) : GrayImage :=
  map (map (fun p => 255 - p)) img.

Definition rows (img : GrayImage) : nat := length img.
Definition cols (img : GrayImage) : nat := length (hd [] img).

Definition crop (img : GrayImage) (x y w h : nat) : GrayImage :=
  map (fun row => take w (drop x row)) (take h (drop y img)).

(** The size is scaled and rounded down; the content is cut, not averaged. *)
Definition resize (t : GrayImage) (fx fy : Q) : option GrayImage :=
  let w := Z.to_nat (Qfloor (inject_Z (Z.of_nat (cols t)) * fx)) in
  let h := Z.to_nat (Qfloor (inject_Z (Z.of_nat (rows t)) * fy)) in
  if ((w =? 0) || (h =? 0))%nat then None else Some (crop t 0 0 w h).

Definition total (l : list Z) : Z := foldr Z.add 0 l.
Definition dot (a b : list Z) : Z := total (zip_with Z.mul a b).

(** For a window [W] and a template [T] of [n] pixels each, the coefficient
    of [TM_CCOEFF_NORMED] is
    [(n ΣWT - ΣW ΣT) / sqrt ((n ΣWW - (ΣW)²) (n ΣTT - (ΣT)²))];
    these are its numerator and the square of its denominator. *)
Definition ccoeff_num (win tpl : GrayImage) : Z :=
  let a := concat win in
  let b := concat tpl in
  Z.of_nat (length b) * dot a b - total a * total b.

Definition ccoeff_den2 (win tpl : GrayImage) : Z :=
  let a := concat win in
  let b := concat tpl in
  let n := Z.of_nat (length b) in
  (n * dot a a - total a * total a) * (n * dot b b - total b * total b).

(** The coefficient is 1 or -1 exactly when the numerator squared is the
    denominator squared, with the sign of the numerator. *)
Definition score (win tpl : GrayImage) : Q :=
  let num := ccoeff_num win tpl in
  if num * num =? ccoeff_den2 win tpl then
    if 0 <? num then 1 else if num <? 0 then -1 else 0
  else 0.

Definition matchTemplate (img tpl : GrayImage) : option Surface :=
  let w := cols tpl in
  let h := rows tpl in
  if ((w =? 0) || (h =? 0) || (cols img <? w) || (rows img <? h))%nat
  then None
  else Some (map (fun y =>
                    map (fun x => score (crop img x y w h) tpl)
                      (seq 0 (cols img - w + 1)))
               (seq 0 (rows img - h + 1))).

Definition cells (s : Surface) : list (Q * (Z * Z)) :=
  concat (imap (fun y row =>
                  imap (fun x v => (v, (Z.of_nat x, Z.of_nat y))) row) s).

Definition pick (better : Q -> Q -> bool) (l : list (Q * (Z * Z)))
  : Q * (Z * Z) :=
  fold_left (fun best c => if better (fst c) (fst best) then c else best)
    (tail l) (hd (0%Q, (0, 0)) l).

Definition minMaxLoc (s : Surface) : Q * Q * (Z * Z) * (Z * Z) :=
  let lo := pick Qltb (cells s) in
  let hi := pick Qgtb (cells s) in
  (fst lo, fst hi, snd lo, snd hi).

Fixpoint clicks (t : list Event) : nat :=
  match t with
  | [] => 0%nat
  | Click :: t' => S (clicks t')
  | _ :: t' => clicks t'
  end.

Fixpoint slept (t : list Event) : Z :=
  match t with
  | [] => 0
  | Sleep s :: t' => s + slept t'
  | _ :: t' => slept t'
  end.

(** The game: a click on the stage list opens the team screen, a click there
    starts the battle (or shows the offer to buy stamina once [rounds]
    battles were fought).  The battle screen turns into the success screen
    when [battle_end] seconds have been slept in total; two more clicks lead
    back to the stage list. *)
Definition game (rounds : nat) (battle_end : Z) (t : list Event)
  : GrayImage :=
  match (clicks t mod 4)%nat with
  | 0%nat => stage_pic
  | 1%nat => team_pic
  | 2%nat => if (rounds <=? clicks t / 4)%nat then stamina_pic
             else if slept t <? battle_end then battle_pic
             else success_pic
  | _ => return_pic
  end.

Definition join (dir name : string) : string := dir +:+ "/" +:+ name.

Definition platform (rounds : nat) (battle_end : Z) : Platform :=
  {| cv2_cvtColor := map (map (fun '(b, g, r) => (b + g + r) / 3));
     cv2_resize := resize;
     cv2_matchTemplate := matchTemplate;
     cv2_minMaxLoc := minMaxLoc;
     screen := game rounds battle_end;
     clock := fun t => slept t * 1000000;
     os_path_join := join |}.

(** The template files of the script, and nothing else on disk. *)
Definition disk : gmap string GrayImage :=
  <["images/stage105.png" := stage_pic]>
  (<["images/teamselect.png" := team_pic]>
  (<["images/buystamina.png" := stamina_pic]>
  (<["images/success.png" := success_pic]>
  (<["images/return.png" := return_pic]> ∅)))).

Definition start : World := {| files := disk; trace := [] |}.

Definition shot : string := "images/screenshot.png".

(** The stage list on screen, captured. *)
Definition shown : World := captured (platform 1 1000) shot start.

(** A capture that is the negative of the stage template: at every pixel
    [255 - p].  Its correlation coefficient with the template is -1. *)
Definition opposite_disk : gmap string GrayImage :=
  <[shot := negative stage_pic]> disk.

(** A 4 x 4 template whose upper left quarter appears in a 4 x 4 capture. *)
Definition big_template : GrayImage :=
  [[10; 200; 1; 2]; [30; 40; 3; 4]; [5; 6; 7; 8]; [9; 10; 11; 12]].
Definition big_capture : GrayImage :=
  [[0; 0; 0; 0]; [0; 0; 10; 200]; [0; 0; 30; 40]; [0; 0; 0; 0]].
Definition big_disk : gmap string GrayImage :=
  <[shot := big_capture]> (<["images/big.png" := big_template]> ∅).

(** The worlds of a round, up to the wait for the battle. *)
Definition world_of {A : Type} (o : Outcome A) : World :=
  match o with
  | Returned _ w => w
  | Crashed w => w
  | OutOfFuel => start
  end.

Definition stage_done (P : Platform) : World :=
  world_of (run_click_task P shot "images/stage105.png" [1%Q]
              (3 # 4, 1 # 2)%Q (4 # 5)%Q 3 2 start).

Definition team_done (P : Platform) : World :=
  world_of (run_click_task P shot "images/teamselect.png" [1%Q]
              (9 # 10, 23 # 25)%Q (4 # 5)%Q 3 3
              (after (stage_done P) [Print MsgEnterStage])).

Definition battle_begun (P : Platform) : World :=
  after (team_done P) [MoveTo 4 4; Print MsgStartBattle].

(** A battle that ends 12 seconds into the script, 7 seconds after the
    battle was started, fought with [max_battle_time = 5]. *)
Definition short_battle : Platform := platform 1 12.

Definition short_battle_end : World :=
  world_of (run_zhulu_105_task short_battle 5 "images" "screenshot.png"
              (4 # 5)%Q [1%Q] 3 5 start).

(** The matcher of the end-to-end example of the specification: the stage
    template, 50 wide and 30 high, is found at (100, 200) with confidence
    0.95 on the first capture, and with confidence 0.4 afterwards. *)
Definition example_template : GrayImage := replicate 30 (replicate 50 0).

Definition example_platform : Platform :=
  {| cv2_cvtColor := map (map (fun '(b, g, r) => (b + g + r) / 3));
     cv2_resize := fun t _ _ => Some t;
     cv2_matchTemplate := fun img _ =>
       Some [[if bool_decide (img = stage_pic) then (19 # 20)%Q
              else (2 # 5)%Q]];
     cv2_minMaxLoc := fun s =>
       let v := hd 0%Q (hd [] s) in (v, v, (100, 200), (100, 200));
     screen := fun t => if (clicks t =? 0)%nat then stage_pic else team_pic;
     clock := fun t => slept t * 1000000;
     os_path_join := join |}.

Definition example_start : World :=
  {| files := <[shot := stage_pic]>
                (<["images/stage105.png" := example_template]> ∅);
     trace := [] |}.

End Fake.

(** ** Notions used to state the further properties *)

(** The number of clicks among some calls. *)
Fixpoint click_count (t : list Event) : nat :=
  match t with
  | [] => 0%nat
  | Click :: t' => S (click_count t')
  | _ :: t' => click_count t'
  end.

(** [w'] comes after [w], and every [save] called in between was called with
    [path]. *)
Definition saves_only_to (path : string) (w w' : World) : Prop :=
  exists later,
    trace w' = trace w ++ later /\
    forall p, Save p ∈ later -> p = path.

(** However the call [c] ends, it has called [save] with no path but
    [path]. *)
Definition saving_only_to {A : Type} (path : string) (c : M A) : Prop :=
  forall w,
    match c w with
    | Returned _ w' => saves_only_to path w w'
    | Crashed w' => saves_only_to path w w'
    | OutOfFuel => True
    end.

(** What [n] click attempts that find nothing leave in the trace. *)
Fixpoint missed_attempts (n : nat) (c : Q) (delay : Z) : list Event :=
  match n with
  | O => []
  | S n' => Print (MsgNoMatch c) :: Sleep delay :: missed_attempts n' c delay
  end.

(** The messages printed right before a [break] of the scenario. *)
Definition final_messages : list Message :=
  [MsgEnterTeamFailed; MsgStartBattleFailed; MsgNoStamina; MsgBattleFailed;
   MsgClickContinueFailed; MsgClickReturnFailed].

(** A game for the concrete runs of the further properties: one battle, won
    25 seconds into the script.  The worlds are those after the wait for the
    battle and after each of the two click tasks that follow it. *)
Definition demo : Platform := Fake.platform 1 25.

Definition demo_battle_won : World :=
  Fake.world_of
    (wait_battle demo 3 Fake.shot "images/success.png" [1%Q] (4 # 5)%Q
       (clock demo (trace (Fake.battle_begun demo)) + 120 * 1000000)
       (Fake.battle_begun demo)).

Definition demo_dismissed : World :=
  Fake.world_of
    (run_click_task demo Fake.shot "images/success.png" [1%Q]
       (1 # 2, 1 # 2)%Q (4 # 5)%Q 3 2 demo_battle_won).

Definition demo_returned : World :=
  Fake.world_of
    (run_click_task demo Fake.shot "images/return.png" [1%Q]
       (1 # 2, 1 # 2)%Q (4 # 5)%Q 3 3 demo_dismissed).

(** * Properties *)

(** ** Comparisons *)

Lemma Qltb_lt (x y : Q) : Qltb x y = true <-> (x < y)%Q.
Proof.
  unfold Qltb. rewrite negb_true_iff. split.
  - intros Hb. apply Qnot_le_lt. intros Hle.
    apply Qle_bool_iff in Hle. congruence.
  - intros Hlt. destruct (Qle_bool y x) eqn:Hb; [| reflexivity].
    apply Qle_bool_iff in Hb. destruct (Qlt_not_le _ _ Hlt Hb).
Qed.

Lemma Qltb_ge (x y : Q) : Qltb x y = false <-> (y <= x)%Q.
Proof.
  unfold Qltb. rewrite negb_false_iff. apply Qle_bool_iff.
Qed.

Lemma Qgeb_le (x y : Q) : Qgeb x y = true <-> (y <= x)%Q.
Proof. apply Qle_bool_iff. Qed.

Lemma Qgeb_lt (x y : Q) : Qgeb x y = false <-> (x < y)%Q.
Proof.
  rewrite <- Qltb_lt. unfold Qltb, Qgeb.
  destruct (Qle_bool y x); simpl; intuition congruence.
Qed.

(** ** Matcher *)

Section MatcherFacts.
Context (P : Platform).
Implicit Types (image template : option GrayImage) (scales : list Q).

(** What the loop over the scales keeps: the confidence never drops below
    its initial value, it bounds the peak of every scale, and either nothing
    was recorded (no peak was above the initial value) or the pair comes
    from one scale whose peak is above the initial value. *)
Lemma scale_loop_inv image template scales :
  forall best_confidence best_match c m,
    scale_loop P image template scales best_confidence best_match
      = Value (c, m) ->
    (best_confidence <= c)%Q /\
    (forall s, s ∈ scales ->
       exists v r, match_at_scale P image template s = Value (v, r) /\
                   (v <= c)%Q) /\
    ((c = best_confidence /\ m = best_match) \/
     (exists s r, s ∈ scales /\
                  match_at_scale P image template s = Value (c, r) /\
                  m = Some r /\ (best_confidence < c)%Q)).
Proof.
  induction scales as [| scale rest IH]; intros bc bm c m Hrun.
  - simpl in Hrun. injection Hrun as <- <-.
    split; [apply Qle_refl |]. split; [| by left].
    intros s Hs. by apply elem_of_nil in Hs.
  - simpl in Hrun.
    destruct (match_at_scale P image template scale) as [[v r] |] eqn:Hpeak;
      simpl in Hrun; [| discriminate].
    destruct (Qgtb v bc) eqn:Hcmp.
    + apply Qltb_lt in Hcmp.
      destruct (IH _ _ _ _ Hrun) as (Hle & Hall & Hsrc).
      split; [apply Qlt_le_weak; eapply Qlt_le_trans; eauto |].
      split.
      * intros s Hs. apply elem_of_cons in Hs as [-> | Hs]; [| by apply Hall].
        exists v, r. by split.
      * right. destruct Hsrc as [(-> & ->) | (s & r' & Hs & Hp & -> & Hlt)].
        -- exists scale, r. repeat split; [by left | done | done].
        -- exists s, r'. repeat split; [by right | done |].
           eapply Qlt_trans; eauto.
    + apply Qltb_ge in Hcmp.
      destruct (IH _ _ _ _ Hrun) as (Hle & Hall & Hsrc).
      split; [done |]. split.
      * intros s Hs. apply elem_of_cons in Hs as [-> | Hs]; [| by apply Hall].
        exists v, r. split; [done |]. eapply Qle_trans; eauto.
      * destruct Hsrc as [(-> & ->) | (s & r' & Hs & Hp & -> & Hlt)].
        -- by left.
        -- right. exists s, r'. repeat split; [by right | done | done].
Qed.

(** The parts of a peak: the template as resized by the scale, the surface,
    and the location of its maximum. *)
Lemma match_at_scale_inv image template scale v r :
  match_at_scale P image template scale = Value (v, r) ->
  exists img tpl scaled_template result min_val min_loc max_loc,
    image = Some img /\ template = Some tpl /\
    cv2_resize P tpl scale scale = Some scaled_template /\
    cv2_matchTemplate P img scaled_template = Some result /\
    cv2_minMaxLoc P result = (min_val, v, min_loc, max_loc) /\
    r = (fst max_loc, snd max_loc,
         shape1 scaled_template, shape0 scaled_template).
Proof.
  unfold match_at_scale, checked. intros Hpeak.
  destruct template as [tpl |]; [| discriminate].
  destruct (cv2_resize P tpl scale scale) as [st |] eqn:Hst;
    [| discriminate].
  destruct image as [img |]; [| discriminate]. simpl in Hpeak.
  destruct (cv2_matchTemplate P img st) as [res |] eqn:Hres;
    [| discriminate]. simpl in Hpeak.
  destruct (cv2_minMaxLoc P res) as [[[mn mx] mnl] mxl] eqn:Hmm.
  injection Hpeak as <- <-.
  by exists img, tpl, st, res, mn, mnl, mxl.
Qed.

End MatcherFacts.

(** C5 (amended).  When matching over the scales returns and the peak of at
    least one scale is strictly above -1, the confidence returned is strictly
    above the initial -1, and it is the recorded peak of one of the scales,
    returned with that scale's region. *)
Theorem recorded_peak_replaces_sentinel (P : Platform)
    (fs : gmap string GrayImage) (image template : ImageArg)
    (scales : list Q) (c : Q) (m : option Region) :
  multi_scale_template_matching P fs image template scales = Value (c, m) ->
  (exists s v r,
      s ∈ scales /\
      match_at_scale P (load_gray P fs image) (load_gray P fs template) s
        = Value (v, r) /\
      (-1 < v)%Q) ->
  (-1 < c)%Q /\
  exists s r,
    s ∈ scales /\
    match_at_scale P (load_gray P fs image) (load_gray P fs template) s
      = Value (c, r) /\
    m = Some r.
Proof.
  unfold multi_scale_template_matching. intros Hrun (s & v & r & Hs & Hpeak & Hv).
  destruct (scale_loop_inv P _ _ _ _ _ _ _ Hrun) as (_ & Hall & Hsrc).
  assert (Hc : (-1 < c)%Q).
  { destruct (Hall s Hs) as (v' & r' & Hpeak' & Hle).
    rewrite Hpeak in Hpeak'. injection Hpeak' as <- <-.
    eapply Qlt_le_trans; eauto. }
  split; [done |].
  destruct Hsrc as [(-> & _) | (s' & r' & Hs' & Hp' & -> & _)].
  - by apply Qlt_irrefl in Hc.
  - by exists s', r'.
Qed.

(** C6 (amended).  When matching over the scales returns and the peak of at
    least one scale is strictly above -1, the confidence returned is the
    highest peak of all the scales, and the region returned is that of a scale
    [s] where it is reached: the location of the maximum of the surface, with
    the width and the height of the template as resized by [s].  With the
    size rule of the resize taken from the specification, these are the
    width and the height of the template as it was loaded, multiplied by [s]
    and rounded. *)
Theorem best_match_is_highest_peak (P : Platform)
    (fs : gmap string GrayImage) (image template : ImageArg)
    (scales : list Q) (c : Q) (m : option Region) :
  multi_scale_template_matching P fs image template scales = Value (c, m) ->
  (exists s v r,
      s ∈ scales /\
      match_at_scale P (load_gray P fs image) (load_gray P fs template) s
        = Value (v, r) /\
      (-1 < v)%Q) ->
  (forall tpl s,
      load_gray P fs template = Some tpl -> s ∈ scales ->
      resize_scales_sides P tpl s) ->
  (forall s', s' ∈ scales ->
     exists v' r',
       match_at_scale P (load_gray P fs image) (load_gray P fs template) s'
         = Value (v', r') /\
       (v' <= c)%Q) /\
  exists s img tpl scaled_template result min_val min_loc max_loc
         width height,
    s ∈ scales /\
    load_gray P fs image = Some img /\
    load_gray P fs template = Some tpl /\
    cv2_resize P tpl s s = Some scaled_template /\
    cv2_matchTemplate P img scaled_template = Some result /\
    cv2_minMaxLoc P result = (min_val, c, min_loc, max_loc) /\
    m = Some (fst max_loc, snd max_loc, width, height) /\
    width = shape1 scaled_template /\
    height = shape0 scaled_template /\
    scaled_and_rounded (shape1 tpl) s width /\
    scaled_and_rounded (shape0 tpl) s height.
Proof.
  unfold multi_scale_template_matching.
  intros Hrun (s & v & r & Hs & Hpeak & Hv) Hsize.
  destruct (scale_loop_inv P _ _ _ _ _ _ _ Hrun) as (_ & Hall & Hsrc).
  split; [exact Hall |].
  destruct Hsrc as [(-> & _) | (s' & r' & Hs' & Hp' & -> & _)].
  - destruct (Hall s Hs) as (v' & r' & Hpeak' & Hle).
    rewrite Hpeak in Hpeak'. injection Hpeak' as <- <-.
    destruct (Qlt_not_le _ _ Hv Hle).
  - destruct (match_at_scale_inv P _ _ _ _ _ Hp')
      as (img & tpl & st & res & mn & mnl & mxl
          & Hi & Ht & Hst & Hres & Hmm & ->).
    destruct (Hsize tpl s' Ht Hs' st Hst) as [Hwidth Hheight].
    exists s', img, tpl, st, res, mn, mnl, mxl, (shape1 st), (shape0 st).
    repeat (split; [done |]). done.
Qed.

(** C9 (amended).  With the resize at the factor 1.0 as the specification
    has it (the template comes back unchanged), matching with the scale list
    [1.0] does what plain single-scale matching on the unresized template
    does whenever the peak of the plain matching is strictly above -1: the
    same confidence and the same region.  It raises when the plain matching
    raises, and it returns the initial pair when the peak is -1 or less. *)
Theorem identity_scale_is_plain_matching (P : Platform)
    (fs : gmap string GrayImage) (image template : ImageArg) :
  (forall tpl, load_gray P fs template = Some tpl ->
               unchanged_by_unit_resize P tpl) ->
  multi_scale_template_matching P fs image template [1%Q]
  = match single_scale_template_matching P fs image template with
    | Value (c, m) => if Qgtb c (-1) then Value (c, m)
                      else Value ((-1)%Q, None)
    | Cv2Error => Cv2Error
    end.
Proof.
  unfold multi_scale_template_matching, single_scale_template_matching.
  intros Hid. simpl. unfold match_at_scale, checked in *.
  destruct (load_gray P fs template) as [tpl |]; [| reflexivity].
  rewrite (Hid tpl eq_refl). simpl.
  destruct (load_gray P fs image) as [img |]; [| reflexivity]. simpl in *.
  destruct (cv2_matchTemplate P img tpl) as [res |]; [| reflexivity].
  simpl in *.
  destruct (cv2_minMaxLoc P res) as [[[mn mx] mnl] mxl]. simpl.
  by destruct (Qgtb mx (-1)).
Qed.

(** ** Clicker *)

Lemma after_after (w : World) (e1 e2 : list Event) :
  after (after w e1) e2 = after w (e1 ++ e2).
Proof. unfold after. simpl. by rewrite <- app_assoc. Qed.

Section ClickerFacts.
Context (P : Platform) (image_path template_path : string)
  (scales : list Q) (offset : Q * Q) (threshold : Q).

Local Abbreviation matching w :=
  (multi_scale_template_matching P (files w) (Path image_path)
     (Path template_path) scales).
Local Abbreviation clicker :=
  (locate_and_click P image_path template_path scales offset threshold).

Lemma locate_and_click_hit (w : World) (c : Q) (r : Region) :
  matching w = Value (c, Some r) -> (threshold <= c)%Q ->
  clicker w = Returned true (after w (click_events offset r c)).
Proof.
  intros Hm Hc. unfold locate_and_click, bind, on_files. rewrite Hm.
  destruct r as [[[x y] width] height]. apply Qgeb_le in Hc. rewrite Hc.
  unfold emit, ret. by rewrite !after_after.
Qed.

Lemma locate_and_click_miss (w : World) (c : Q) (m : option Region) :
  matching w = Value (c, m) -> m = None \/ (c < threshold)%Q ->
  clicker w = Returned false (after w [Print (MsgNoMatch c)]).
Proof.
  intros Hm Hc. unfold locate_and_click, bind, on_files. rewrite Hm.
  destruct m as [[[[x y] width] height] |]; [| reflexivity].
  destruct Hc as [Hc | Hc]; [discriminate |].
  apply Qgeb_lt in Hc. by rewrite Hc.
Qed.

(** The three ways a call of the clicker ends. *)
Lemma locate_and_click_cases (w : World) :
  (matching w = Cv2Error /\ clicker w = Crashed w) \/
  (exists c m, matching w = Value (c, m) /\
               (m = None \/ (c < threshold)%Q) /\
               clicker w = Returned false (after w [Print (MsgNoMatch c)])) \/
  (exists c r, matching w = Value (c, Some r) /\ (threshold <= c)%Q /\
               clicker w = Returned true (after w (click_events offset r c))).
Proof.
  destruct (matching w) as [[c m] |] eqn:Hm.
  - destruct m as [r |].
    + destruct (Qlt_le_dec c threshold) as [Hlt | Hle].
      * right; left. exists c, (Some r). repeat split; [by right |].
        eapply locate_and_click_miss; eauto.
      * right; right. exists c, r. repeat split; [done |].
        by apply locate_and_click_hit.
    + right; left. exists c, None. repeat split; [by left |].
      eapply locate_and_click_miss; eauto.
  - left. split; [done |].
    unfold locate_and_click, bind, on_files. by rewrite Hm.
Qed.

End ClickerFacts.

(** C2.  Whatever the threshold (in particular in [0,1]): when the matching
    returns a confidence strictly below it, the clicker returns [False]
    without an exception, and its only call is the [print] of the failure: the
    pointer is neither moved nor clicked, and no file changes. *)
Theorem no_click_below_threshold (P : Platform)
    (image_path template_path : string) (scales : list Q) (offset : Q * Q)
    (threshold : Q) (w : World) (c : Q) (m : option Region) :
  multi_scale_template_matching P (files w) (Path image_path)
    (Path template_path) scales = Value (c, m) ->
  (c < threshold)%Q ->
  locate_and_click P image_path template_path scales offset threshold w
    = Returned false (after w [Print (MsgNoMatch c)]) /\
  forall e, e ∈ [Print (MsgNoMatch c)] -> is_pointer e = false.
Proof.
  intros Hm Hc. split.
  - eapply locate_and_click_miss; eauto.
  - intros e He. apply list_elem_of_singleton in He. by subst.
Qed.

(** C10.  With an empty scale list the matcher returns the confidence -1 and
    no region, and the clicker returns [False] for every threshold, with the
    [print] of the failure as its only call. *)
Theorem empty_scale_list_never_clicks (P : Platform)
    (fs : gmap string GrayImage) (image template : ImageArg)
    (image_path template_path : string) (offset : Q * Q) (threshold : Q)
    (w : World) :
  multi_scale_template_matching P fs image template [] = Value ((-1)%Q, None)
  /\
  locate_and_click P image_path template_path [] offset threshold w
    = Returned false (after w [Print (MsgNoMatch (-1))]).
Proof. split; reflexivity. Qed.

(** ** Task runner *)

Section RunnerFacts.
Context (P : Platform) (image_path template_path : string)
  (scales : list Q) (click_offset : Q * Q) (threshold : Q)
  (retry_times delay : Z).

Local Abbreviation matching w :=
  (multi_scale_template_matching P (files w) (Path image_path)
     (Path template_path) scales).
Local Abbreviation clicker :=
  (locate_and_click P image_path template_path scales click_offset
     threshold).
Local Abbreviation loop fuel :=
  (run_click_loop P fuel image_path template_path scales click_offset
     threshold retry_times delay).
Local Abbreviation rechecked w1 :=
  (captured P image_path (after w1 [Sleep delay])).

Lemma run_click_loop_exit (fuel : nat) (retry_num : Z) (w : World) :
  retry_times <= retry_num ->
  loop fuel retry_num w = Returned (false, retry_num) w.
Proof.
  intros Hge. apply Z.ltb_ge in Hge.
  destruct fuel; simpl; by rewrite Hge.
Qed.

Lemma run_click_loop_crash (fuel : nat) (retry_num : Z) (w w1 : World) :
  retry_num < retry_times ->
  clicker w = Crashed w1 ->
  loop (S fuel) retry_num w = Crashed w1.
Proof.
  intros Hlt Hc. apply Z.ltb_lt in Hlt. cbn [run_click_loop].
  rewrite Hlt. unfold bind at 1. by rewrite Hc.
Qed.

Lemma run_click_loop_miss (fuel : nat) (retry_num : Z) (w w1 : World) :
  retry_num < retry_times ->
  clicker w = Returned false w1 ->
  loop (S fuel) retry_num w
    = loop fuel (retry_num + 1) (after w1 [Sleep delay]).
Proof.
  intros Hlt Hc. apply Z.ltb_lt in Hlt. cbn [run_click_loop].
  rewrite Hlt. unfold bind at 1. rewrite Hc. reflexivity.
Qed.

Lemma run_click_loop_hit (fuel : nat) (retry_num : Z) (w w1 : World) :
  retry_num < retry_times ->
  clicker w = Returned true w1 ->
  loop (S fuel) retry_num w
    = match matching (rechecked w1) with
      | Cv2Error => Crashed (rechecked w1)
      | Value (c, m) =>
          if negb (truthy m) || Qltb c threshold
          then Returned (true, retry_num) (rechecked w1)
          else loop fuel (retry_num + 1) (rechecked w1)
      end.
Proof.
  intros Hlt Hc. apply Z.ltb_lt in Hlt. cbn [run_click_loop].
  rewrite Hlt. unfold bind at 1. rewrite Hc.
  unfold bind, emit, capture_to, on_files. cbn [negb].
  destruct (matching (rechecked w1)) as [[c m] |]; [| reflexivity].
  by destruct (negb (truthy m) || Qltb c threshold).
Qed.

Local Abbreviation failures :=
  (unsuccessful_attempts P image_path template_path scales click_offset
     threshold delay).

(** What a run of the loop that returns went through: [k] attempts that
    raised [retry_num], then either the exit of the loop, or a click
    followed by a fresh capture that no longer shows the template. *)
Lemma run_click_loop_returns (fuel : nat) :
  forall (retry_num : Z) (w : World) (b : bool) (j : Z) (w' : World),
    loop fuel retry_num w = Returned (b, j) w' ->
    exists (k : nat) (w1 : World),
      failures k w w1 /\ j = retry_num + Z.of_nat k /\
      if b then
        j < retry_times /\
        exists w2 c m,
          clicker w1 = Returned true w2 /\ w' = rechecked w2 /\
          matching w' = Value (c, m) /\ (m = None \/ (c < threshold)%Q)
      else w1 = w' /\ j = Z.max retry_num retry_times.
Proof.
  induction fuel as [| fuel IH]; intros n w b j w' Hrun.
  - simpl in Hrun. destruct (n <? retry_times) eqn:Hn; [discriminate |].
    injection Hrun as <- <- <-. apply Z.ltb_ge in Hn.
    exists 0%nat, w. split; [constructor |]. split; [lia |]. split; [done | lia].
  - destruct (Z.lt_ge_cases n retry_times) as [Hlt | Hge].
    + destruct (locate_and_click_cases P image_path template_path scales
                  click_offset threshold w)
        as [(_ & Hc) | [(c & m & _ & _ & Hc) | (c & r & _ & _ & Hc)]].
      * rewrite (run_click_loop_crash _ _ _ _ Hlt Hc) in Hrun. discriminate.
      * rewrite (run_click_loop_miss _ _ _ _ Hlt Hc) in Hrun.
        apply IH in Hrun as (k & w1 & Hk & -> & Hb).
        exists (S k), w1. split.
        { econstructor; [| exact Hk]. by constructor. }
        split; [lia |]. destruct b; [done |].
        destruct Hb as [-> ->]. split; [done | lia].
      * rewrite (run_click_loop_hit _ _ _ _ Hlt Hc) in Hrun.
        set (w2 := after w (click_events click_offset r c)) in *.
        destruct (matching (rechecked w2)) as [[c' m'] |] eqn:Hm';
          [| discriminate].
        destruct (negb (truthy m') || Qltb c' threshold) eqn:Hgone.
        -- injection Hrun as <- <- <-.
           exists 0%nat, w. split; [constructor |]. split; [lia |].
           split; [done |]. exists w2, c', m'. repeat split; try done.
           apply orb_true_iff in Hgone as [Hnone | Hlow].
           ++ left. by destruct m'.
           ++ right. by apply Qltb_lt.
        -- apply orb_false_iff in Hgone as [Hsome Hhigh].
           apply Qltb_ge in Hhigh. destruct m' as [r' |]; [| discriminate].
           apply IH in Hrun as (k & w1 & Hk & -> & Hb).
           exists (S k), w1. split.
           { econstructor; [| exact Hk].
             eapply click_without_effect; eauto. }
           split; [lia |]. destruct b; [done |].
           destruct Hb as [-> ->]. split; [done | lia].
    + rewrite (run_click_loop_exit _ _ _ Hge) in Hrun.
      injection Hrun as <- <- <-.
      exists 0%nat, w. split; [constructor |]. split; [lia |]. split; [done | lia].
Qed.

(** The fuel handed to the loop by [run_click_task] is enough. *)
Lemma run_click_loop_fuel (fuel : nat) :
  forall (retry_num : Z) (w : World),
    (Z.to_nat (retry_times - retry_num) <= fuel)%nat ->
    loop fuel retry_num w <> OutOfFuel.
Proof.
  induction fuel as [| fuel IH]; intros n w Hfuel.
  - rewrite run_click_loop_exit; [done | lia].
  - destruct (Z.lt_ge_cases n retry_times) as [Hlt | Hge];
      [| by rewrite run_click_loop_exit].
    destruct (locate_and_click_cases P image_path template_path scales
                click_offset threshold w)
      as [(_ & Hc) | [(c & m & _ & _ & Hc) | (c & r & _ & _ & Hc)]].
    + by rewrite (run_click_loop_crash _ _ _ _ Hlt Hc).
    + rewrite (run_click_loop_miss _ _ _ _ Hlt Hc). apply IH. lia.
    + rewrite (run_click_loop_hit _ _ _ _ Hlt Hc).
      destruct (matching _) as [[c' m'] |]; [| done].
      destruct (negb (truthy m') || Qltb c' threshold); [done |].
      apply IH. lia.
Qed.

Lemma run_click_task_never_out_of_fuel (w : World) :
  run_click_task P image_path template_path scales click_offset threshold
    retry_times delay w <> OutOfFuel.
Proof.
  unfold run_click_task, run_click_task_counted, bind, capture_to.
  pose proof (run_click_loop_fuel (Z.to_nat retry_times) 0
                (captured P image_path w)) as Hfuel.
  destruct (loop _ 0 _) as [[s j] w' | w' |]; [done | done |].
  intros _. apply Hfuel; [| reflexivity]. by rewrite Z.sub_0_r.
Qed.

End RunnerFacts.

(** C1.  When the task runner returns, it went through [k] attempts that each
    raised [retry_num], which is [k] on exit.  If it returns [True], then
    [k < retry_times] and the last thing that happened is a click reported as
    made by the clicker, the wait, a fresh capture, and a new matching of the
    same template on that capture which gave no region or a confidence
    strictly below the threshold.  If it returns [False], the [k] attempts are
    all that happened after the first capture and [k] is [retry_times] (0 when
    [retry_times] is negative), never less. *)
Theorem run_click_task_verdict (P : Platform)
    (image_path template_path : string) (scales : list Q)
    (click_offset : Q * Q) (threshold : Q) (retry_times delay : Z)
    (w : World) (b : bool) (w' : World) :
  run_click_task P image_path template_path scales click_offset threshold
    retry_times delay w = Returned b w' ->
  exists (k : nat) (w1 : World),
    unsuccessful_attempts P image_path template_path scales click_offset
      threshold delay k (captured P image_path w) w1 /\
    run_click_task_counted P image_path template_path scales click_offset
      threshold retry_times delay w = Returned (b, Z.of_nat k) w' /\
    if b then
      Z.of_nat k < retry_times /\
      exists w2 c m,
        locate_and_click P image_path template_path scales click_offset
          threshold w1 = Returned true w2 /\
        w' = captured P image_path (after w2 [Sleep delay]) /\
        multi_scale_template_matching P (files w') (Path image_path)
          (Path template_path) scales = Value (c, m) /\
        (m = None \/ (c < threshold)%Q)
    else w1 = w' /\ Z.of_nat k = Z.max 0 retry_times.
Proof.
  unfold run_click_task, bind at 1. intros Hrun.
  destruct (run_click_task_counted _ _ _ _ _ _ _ _ w)
    as [[s j] wr | wr |] eqn:Hcounted; try discriminate.
  injection Hrun as <- <-.
  unfold run_click_task_counted, bind, capture_to in Hcounted.
  destruct (run_click_loop_returns _ _ _ _ _ _ _ _ _ _ _ _ _ _ Hcounted)
    as (k & w1 & Hk & Hj & Hb).
  exists k, w1. rewrite Z.add_0_l in Hj. subst j. by repeat split.
Qed.

(** C8.  In an iteration of the task runner in which the clicker reports a
    failure, the next iteration starts after a [print] and the wait only: no
    capture is taken, the files are those the failed attempt saw, so the next
    attempt matches the same stored capture. *)
Theorem failed_attempt_keeps_capture (P : Platform) (fuel : nat)
    (image_path template_path : string) (scales : list Q)
    (click_offset : Q * Q) (threshold : Q) (retry_times delay : Z)
    (retry_num : Z) (w w1 : World) :
  retry_num < retry_times ->
  locate_and_click P image_path template_path scales click_offset threshold w
    = Returned false w1 ->
  let w2 := after w1 [Sleep delay] in
  run_click_loop P (S fuel) image_path template_path scales click_offset
    threshold retry_times delay retry_num w
  = run_click_loop P fuel image_path template_path scales click_offset
      threshold retry_times delay (retry_num + 1) w2 /\
  files w2 = files w /\
  (exists c, trace w2 = trace w ++ [Print (MsgNoMatch c); Sleep delay]) /\
  (forall e, e ∈ drop (length (trace w)) (trace w2) -> is_capture e = false).
Proof.
  intros Hlt Hc w2. subst w2.
  split; [by apply run_click_loop_miss |].
  destruct (locate_and_click_cases P image_path template_path scales
              click_offset threshold w)
    as [(_ & Hc') | [(c & m & _ & _ & Hc') | (c & r & _ & _ & Hc')]];
    rewrite Hc in Hc'; try discriminate.
  injection Hc' as ->. rewrite after_after. simpl.
  split; [done |]. split; [by exists c |].
  intros e. rewrite drop_app_length. intros He.
  apply elem_of_cons in He as [-> | He]; [done |].
  apply list_elem_of_singleton in He. by subst.
Qed.

(** ** Scenario controller *)

(** C3.  In a round in which the two click tasks succeeded, if the matching of
    the stamina template against the stored screenshot reaches the threshold,
    the scenario returns right there: after the stamina check it only prints
    that there is no stamina.  No wait for the battle (no sleep, no capture)
    and no click task follows. *)
Theorem no_stamina_ends_scenario (P : Platform) (fuel : nat)
    (image_path game_screenshot_path : string) (confidence_threshold : Q)
    (scales : list Q) (retry_times max_battle_time : Z)
    (w w1 w2 : World) (c : Q) (m : option Region) :
  let screenshot_file := os_path_join P image_path game_screenshot_path in
  let template name := os_path_join P image_path name in
  run_click_task P screenshot_file (template "stage105.png") scales
    (3 # 4, 1 # 2)%Q confidence_threshold retry_times 2 w
    = Returned true w1 ->
  run_click_task P screenshot_file (template "teamselect.png") scales
    (9 # 10, 23 # 25)%Q confidence_threshold retry_times 3
    (after w1 [Print MsgEnterStage]) = Returned true w2 ->
  multi_scale_template_matching P (files w2) (Path screenshot_file)
    (Path (template "buystamina.png")) scales = Value (c, m) ->
  (confidence_threshold <= c)%Q ->
  run_zhulu_105_task P (S fuel) image_path game_screenshot_path
    confidence_threshold scales retry_times max_battle_time w
  = Returned tt (after w2 [MoveTo 4 4; Print MsgNoStamina]).
Proof.
  cbv zeta beta. intros Hstage Hteam Hstamina Hc.
  cbn [run_zhulu_105_task].
  unfold bind at 1. rewrite Hstage. cbn [negb].
  unfold bind at 1. unfold emit at 1.
  unfold bind at 1. rewrite Hteam. cbn [negb].
  unfold bind at 1. unfold emit at 1.
  unfold bind at 1. unfold on_files at 1. cbn [files after].
  rewrite Hstamina. apply Qgeb_le in Hc. rewrite Hc.
  unfold emit. by rewrite after_after.
Qed.

Section WaitFacts.
Context (P : Platform) (screenshot_file success_file : string)
  (scales : list Q) (threshold : Q) (max_time_out : Z).

Local Abbreviation wait fuel :=
  (wait_battle P fuel screenshot_file success_file scales threshold
     max_time_out).
Local Abbreviation polled w :=
  (captured P screenshot_file (after w [Sleep 10])).

Lemma wait_battle_exit (fuel : nat) (w : World) :
  max_time_out <= clock P (trace w) ->
  wait fuel w = Returned false w.
Proof.
  intros Hlate. apply Z.ltb_ge in Hlate.
  destruct fuel; cbn [wait_battle]; unfold bind, now; by rewrite Hlate.
Qed.

Lemma wait_battle_step (fuel : nat) (w : World) :
  clock P (trace w) < max_time_out ->
  wait (S fuel) w
    = match multi_scale_template_matching P (files (polled w))
              (Path screenshot_file) (Path success_file) scales with
      | Cv2Error => Crashed (polled w)
      | Value (c, _) =>
          if Qgeb c threshold
          then Returned true (after (polled w) [Print MsgBattleSucceeded])
          else wait fuel (polled w)
      end.
Proof.
  intros Hearly. apply Z.ltb_lt in Hearly.
  cbn [wait_battle]. unfold bind at 1. unfold now at 1. rewrite Hearly.
  unfold bind, emit, capture_to, on_files.
  destruct (multi_scale_template_matching P (files (polled w)) _ _ _)
    as [[c m] |]; [| reflexivity].
  by destruct (Qgeb c threshold).
Qed.

Lemma after_polls_trace (n : nat) :
  forall w : World,
    trace (after_polls P screenshot_file n w)
    = trace w ++ polls n screenshot_file.
Proof.
  induction n as [| n IH]; intros w; simpl; [by rewrite app_nil_r |].
  rewrite IH. simpl. by rewrite <- !app_assoc.
Qed.

(** If the clock is before the deadline at the first [n] tests of the loop
    and the capture of each of these [n] iterations stays below the
    threshold, and the clock has reached the deadline at the next test, the
    wait gives up after exactly [n] iterations. *)
Lemma wait_battle_times_out (n : nat) :
  forall w : World,
    (forall k, (k < n)%nat ->
       clock P (trace (after_polls P screenshot_file k w)) < max_time_out) ->
    (forall k, (k < n)%nat ->
       exists c m,
         multi_scale_template_matching P
           (files (after_polls P screenshot_file (S k) w))
           (Path screenshot_file) (Path success_file) scales = Value (c, m) /\
         (c < threshold)%Q) ->
    max_time_out <= clock P (trace (after_polls P screenshot_file n w)) ->
    forall fuel, (n <= fuel)%nat ->
      wait fuel w = Returned false (after_polls P screenshot_file n w).
Proof.
  induction n as [| n IH]; intros w Hearly Hmiss Hlate fuel Hfuel.
  - by apply wait_battle_exit.
  - destruct fuel as [| fuel]; [lia |].
    rewrite wait_battle_step by (apply (Hearly 0%nat); lia).
    destruct (Hmiss 0%nat) as (c & m & Hm & Hc); [lia |].
    cbn [after_polls] in Hm. rewrite Hm. apply Qgeb_lt in Hc. rewrite Hc.
    apply IH; [| | done | lia].
    + intros k Hk. apply (Hearly (S k)). lia.
    + intros k Hk. apply (Hmiss (S k)). lia.
Qed.

End WaitFacts.

(** C4 (amended).  In a round in which the two click tasks succeeded and the
    stamina check stayed below the threshold, the wait for the battle tests
    the deadline, and while the clock is before it, sleeps 10 seconds,
    captures the screen and matches the success template.  The deadline is
    tested only before the sleep, so the last capture may be taken after the
    deadline.  If the deadline is first found reached at the test after [n]
    such iterations, and none of these [n] captures reaches the threshold
    (the last one included), the scenario makes exactly these [n] polls,
    prints the battle failure and returns: no dismiss or return click task
    follows. *)
Theorem battle_timeout_ends_scenario (P : Platform) (n : nat)
    (image_path game_screenshot_path : string) (confidence_threshold : Q)
    (scales : list Q) (retry_times max_battle_time : Z)
    (w w1 w2 : World) (c : Q) (m : option Region) :
  let screenshot_file := os_path_join P image_path game_screenshot_path in
  let template name := os_path_join P image_path name in
  let w3 := after w2 [MoveTo 4 4; Print MsgStartBattle] in
  let max_time_out := clock P (trace w3) + max_battle_time * 1000000 in
  run_click_task P screenshot_file (template "stage105.png") scales
    (3 # 4, 1 # 2)%Q confidence_threshold retry_times 2 w
    = Returned true w1 ->
  run_click_task P screenshot_file (template "teamselect.png") scales
    (9 # 10, 23 # 25)%Q confidence_threshold retry_times 3
    (after w1 [Print MsgEnterStage]) = Returned true w2 ->
  multi_scale_template_matching P (files w2) (Path screenshot_file)
    (Path (template "buystamina.png")) scales = Value (c, m) ->
  (c < confidence_threshold)%Q ->
  (forall k, (k < n)%nat ->
     clock P (trace (after_polls P screenshot_file k w3)) < max_time_out) ->
  (forall k, (k < n)%nat ->
     exists c' m',
       multi_scale_template_matching P
         (files (after_polls P screenshot_file (S k) w3))
         (Path screenshot_file) (Path (template "success.png")) scales
         = Value (c', m') /\
       (c' < confidence_threshold)%Q) ->
  max_time_out <= clock P (trace (after_polls P screenshot_file n w3)) ->
  trace (after_polls P screenshot_file n w3)
    = trace w3 ++ polls n screenshot_file /\
  forall fuel, (n <= fuel)%nat ->
    run_zhulu_105_task P (S fuel) image_path game_screenshot_path
      confidence_threshold scales retry_times max_battle_time w
    = Returned tt
        (after (after_polls P screenshot_file n w3) [Print MsgBattleFailed]).
Proof.
  cbv zeta beta. intros Hstage Hteam Hstamina Hc Hearly Hmiss Hlate.
  set (w3 := after w2 [MoveTo 4 4; Print MsgStartBattle]) in *.
  split; [apply after_polls_trace |].
  intros fuel Hfuel. cbn [run_zhulu_105_task].
  unfold bind at 1. rewrite Hstage. cbn [negb].
  unfold bind at 1. unfold emit at 1.
  unfold bind at 1. rewrite Hteam. cbn [negb].
  unfold bind at 1. unfold emit at 1.
  unfold bind at 1. unfold on_files at 1. cbn [files after].
  rewrite Hstamina. apply Qgeb_lt in Hc. rewrite Hc.
  unfold bind at 1. unfold emit at 1. rewrite after_after.
  unfold bind at 1. unfold now at 1.
  unfold bind at 1. cbn [app]. fold w3.
  rewrite (wait_battle_times_out P _ _ _ _ _ n w3 Hearly Hmiss Hlate fuel Hfuel).
  reflexivity.
Qed.

(** ** The stand-in platform *)

Lemma fake_slept_app (t1 t2 : list Event) :
  Fake.slept (t1 ++ t2) = Fake.slept t1 + Fake.slept t2.
Proof.
  induction t1 as [| e t1 IH]; simpl; [done |].
  destruct e; rewrite IH; lia.
Qed.

Lemma fake_clock_advances (rounds : nat) (battle_end : Z) :
  clock_advances (Fake.platform rounds battle_end).
Proof.
  split; simpl.
  - intros t. rewrite fake_slept_app. simpl. lia.
  - intros t path. rewrite fake_slept_app. simpl. lia.
Qed.

(** What the game can show, and when it shows the success screen. *)
Lemma fake_game_cases (rounds : nat) (battle_end : Z) (t : list Event) :
  Fake.game rounds battle_end t
    ∈ [Fake.stage_pic; Fake.team_pic; Fake.stamina_pic; Fake.battle_pic;
       Fake.return_pic] \/
  (Fake.game rounds battle_end t = Fake.success_pic /\
   battle_end <= Fake.slept t).
Proof.
  unfold Fake.game.
  destruct (Fake.clicks t mod 4)%nat as [| [| [| k]]].
  - left. set_solver.
  - left. set_solver.
  - destruct (rounds <=? Fake.clicks t / 4)%nat; [left; set_solver |].
    destruct (Fake.slept t <? battle_end) eqn:Hend; [left; set_solver |].
    right. apply Z.ltb_ge in Hend. by split.
  - left. set_solver.
Qed.

(** The pictures other than the success screen do not match the success
    template, whatever else is on disk next to the templates. *)
Lemma fake_other_screens_below_threshold (rounds : nat) (battle_end : Z)
    (w : World) (pic : GrayImage) :
  files w !! "images/success.png" = Some Fake.success_pic ->
  pic ∈ [Fake.stage_pic; Fake.team_pic; Fake.stamina_pic; Fake.battle_pic;
         Fake.return_pic] ->
  below_threshold (Fake.platform rounds battle_end) w Fake.shot
    "images/success.png" [1%Q] (4 # 5)%Q pic.
Proof.
  intros Htpl Hpic. exists 0%Q, (Some (0, 0, 2, 2)). split; [| reflexivity].
  unfold multi_scale_template_matching, load_gray.
  rewrite lookup_insert_eq, lookup_insert_ne by done. rewrite Htpl.
  repeat (apply elem_of_cons in Hpic as [-> | Hpic]; [by vm_compute |]).
  by apply elem_of_nil in Hpic.
Qed.

(** The numerator and the squared denominator of the correlation coefficient
    of the negative of the stage template with the template: the coefficient
    is [-92000 / sqrt 8464000000 = -1]. *)
Lemma fake_opposite_coefficient :
  Fake.ccoeff_num (Fake.negative Fake.stage_pic) Fake.stage_pic = -92000 /\
  Fake.ccoeff_den2 (Fake.negative Fake.stage_pic) Fake.stage_pic
    = (-92000) * (-92000).
Proof. split; reflexivity. Qed.

(** ** Concrete runs *)

(** C5 as stated fails: with the one scale 1.0, a capture that is the negative
    of the template makes the only peak -1; [-1 > -1] is false, nothing is
    recorded, and the initial pair comes back. *)
Lemma sentinel_returned_for_opposite_capture :
  [1%Q] <> [] /\
  multi_scale_template_matching (Fake.platform 1 12) Fake.opposite_disk
    (Path Fake.shot) (Path "images/stage105.png") [1%Q]
  = Value ((-1)%Q, None).
Proof. split; [discriminate | by vm_compute]. Qed.

Lemma recorded_peak_replaces_sentinel_witness :
  (-1 < 1)%Q /\
  exists s r,
    s ∈ [1%Q; (1 # 2)%Q] /\
    match_at_scale (Fake.platform 1 12)
      (load_gray (Fake.platform 1 12) Fake.big_disk (Path Fake.shot))
      (load_gray (Fake.platform 1 12) Fake.big_disk (Path "images/big.png")) s
    = Value (1%Q, r) /\
    Some (2, 1, 2, 2) = Some r.
Proof.
  apply (recorded_peak_replaces_sentinel (Fake.platform 1 12) Fake.big_disk
           (Path Fake.shot) (Path "images/big.png") [1%Q; (1 # 2)%Q]
           1%Q (Some (2, 1, 2, 2))).
  - by vm_compute.
  - exists (1 # 2)%Q, 1%Q, (2, 1, 2, 2).
    split; [set_solver |]. split; [by vm_compute | reflexivity].
Defined.

(** C6 as stated fails at the same input: the highest peak over the scales is
    that of the scale 1.0, at (0, 0) with the size 2 x 2 of the template, but
    no region is returned. *)
Lemma no_region_for_opposite_capture :
  match_at_scale (Fake.platform 1 12)
    (load_gray (Fake.platform 1 12) Fake.opposite_disk (Path Fake.shot))
    (load_gray (Fake.platform 1 12) Fake.opposite_disk
       (Path "images/stage105.png")) 1
  = Value ((-1)%Q, (0, 0, 2, 2)) /\
  multi_scale_template_matching (Fake.platform 1 12) Fake.opposite_disk
    (Path Fake.shot) (Path "images/stage105.png") [1%Q]
  = Value ((-1)%Q, None).
Proof. split; by vm_compute. Qed.

Lemma best_match_is_highest_peak_witness :
  (forall s', s' ∈ [1%Q; (1 # 2)%Q] ->
     exists v' r',
       match_at_scale (Fake.platform 1 12)
         (load_gray (Fake.platform 1 12) Fake.big_disk (Path Fake.shot))
         (load_gray (Fake.platform 1 12) Fake.big_disk
            (Path "images/big.png")) s'
         = Value (v', r') /\
       (v' <= 1)%Q) /\
  exists s img tpl scaled_template result min_val min_loc max_loc
         width height,
    s ∈ [1%Q; (1 # 2)%Q] /\
    load_gray (Fake.platform 1 12) Fake.big_disk (Path Fake.shot) = Some img /\
    load_gray (Fake.platform 1 12) Fake.big_disk (Path "images/big.png")
      = Some tpl /\
    Fake.resize tpl s s = Some scaled_template /\
    Fake.matchTemplate img scaled_template = Some result /\
    Fake.minMaxLoc result = (min_val, 1%Q, min_loc, max_loc) /\
    Some (2, 1, 2, 2) = Some (fst max_loc, snd max_loc, width, height) /\
    width = shape1 scaled_template /\
    height = shape0 scaled_template /\
    scaled_and_rounded (shape1 tpl) s width /\
    scaled_and_rounded (shape0 tpl) s height.
Proof.
  apply (best_match_is_highest_peak (Fake.platform 1 12) Fake.big_disk
           (Path Fake.shot) (Path "images/big.png") [1%Q; (1 # 2)%Q]
           1%Q (Some (2, 1, 2, 2))).
  - by vm_compute.
  - exists (1 # 2)%Q, 1%Q, (2, 1, 2, 2).
    split; [set_solver |]. split; [by vm_compute | reflexivity].
  - intros tpl s Htpl Hs t' Hresize.
    vm_compute in Htpl. injection Htpl as <-.
    apply elem_of_cons in Hs as [-> | Hs];
      [| apply list_elem_of_singleton in Hs as ->];
      vm_compute in Hresize; injection Hresize as <-;
      by vm_compute.
Defined.

(** C9 as stated fails at the same input, although resizing by 1.0 gives the
    template back: plain matching returns the region of the peak, matching
    with the scale list [1.0] returns none. *)
Lemma identity_scale_differs_for_opposite_capture :
  cv2_resize (Fake.platform 1 12) Fake.stage_pic 1 1 = Some Fake.stage_pic /\
  single_scale_template_matching (Fake.platform 1 12) Fake.opposite_disk
    (Path Fake.shot) (Path "images/stage105.png")
  = Value ((-1)%Q, Some (0, 0, 2, 2)) /\
  multi_scale_template_matching (Fake.platform 1 12) Fake.opposite_disk
    (Path Fake.shot) (Path "images/stage105.png") [1%Q]
  = Value ((-1)%Q, None).
Proof. repeat split; by vm_compute. Qed.

Lemma identity_scale_is_plain_matching_witness :
  multi_scale_template_matching (Fake.platform 1 12) (files Fake.shown)
    (Path Fake.shot) (Path "images/stage105.png") [1%Q]
  = match single_scale_template_matching (Fake.platform 1 12)
            (files Fake.shown) (Path Fake.shot) (Path "images/stage105.png")
    with
    | Value (c, m) => if Qgtb c (-1) then Value (c, m)
                      else Value ((-1)%Q, None)
    | Cv2Error => Cv2Error
    end.
Proof.
  apply (identity_scale_is_plain_matching (Fake.platform 1 12)
           (files Fake.shown) (Path Fake.shot) (Path "images/stage105.png")).
  intros tpl Htpl. vm_compute in Htpl. injection Htpl as <-. by vm_compute.
Defined.

Lemma no_click_below_threshold_witness :
  locate_and_click (Fake.platform 1 1000) Fake.shot "images/teamselect.png"
    [1%Q] (9 # 10, 23 # 25)%Q (4 # 5)%Q Fake.shown
  = Returned false (after Fake.shown [Print (MsgNoMatch 0)]) /\
  forall e, e ∈ [Print (MsgNoMatch 0)] -> is_pointer e = false.
Proof.
  apply (no_click_below_threshold (Fake.platform 1 1000) Fake.shot
           "images/teamselect.png" [1%Q] (9 # 10, 23 # 25)%Q (4 # 5)%Q
           Fake.shown 0%Q (Some (0, 0, 2, 2))).
  - by vm_compute.
  - reflexivity.
Defined.

(** The example of the specification: threshold 0.8, the region
    (100, 200, 50, 30) found with confidence 0.95, the offset (0.75, 0.5);
    the click goes to (137, 215).  The products 50 * 0.75 = 37.5 and
    30 * 0.5 = 15 are exact in binary floating point as well. *)
Lemma example_click_point :
  locate_and_click Fake.example_platform Fake.shot "images/stage105.png"
    [1%Q] (3 # 4, 1 # 2)%Q (4 # 5)%Q Fake.example_start
  = Returned true
      (after Fake.example_start
         [MoveTo 137 215; Click; Print (MsgClicked 137 215 (19 # 20))]).
Proof. by vm_compute. Qed.

(** The example goes on: the capture taken after the click matches with
    confidence 0.4 only, so the task runner returns [True] at once. *)
Lemma example_task_done_at_first_attempt :
  run_click_task_counted Fake.example_platform Fake.shot
    "images/stage105.png" [1%Q] (3 # 4, 1 # 2)%Q (4 # 5)%Q 2 2
    Fake.example_start
  = Returned (true, 0)
      (captured Fake.example_platform Fake.shot
         (after (captured Fake.example_platform Fake.shot Fake.example_start)
            [MoveTo 137 215; Click; Print (MsgClicked 137 215 (19 # 20));
             Sleep 2])).
Proof. by vm_compute. Qed.

Lemma run_click_task_verdict_witness :
  exists (k : nat) (w1 : World),
    unsuccessful_attempts (Fake.platform 1 1000) Fake.shot
      "images/stage105.png" [1%Q] (3 # 4, 1 # 2)%Q (4 # 5)%Q 2 k
      (captured (Fake.platform 1 1000) Fake.shot Fake.start) w1 /\
    run_click_task_counted (Fake.platform 1 1000) Fake.shot
      "images/stage105.png" [1%Q] (3 # 4, 1 # 2)%Q (4 # 5)%Q 3 2 Fake.start
    = Returned (true, Z.of_nat k) (Fake.stage_done (Fake.platform 1 1000)) /\
    Z.of_nat k < 3 /\
    exists w2 c m,
      locate_and_click (Fake.platform 1 1000) Fake.shot "images/stage105.png"
        [1%Q] (3 # 4, 1 # 2)%Q (4 # 5)%Q w1 = Returned true w2 /\
      Fake.stage_done (Fake.platform 1 1000)
      = captured (Fake.platform 1 1000) Fake.shot (after w2 [Sleep 2]) /\
      multi_scale_template_matching (Fake.platform 1 1000)
        (files (Fake.stage_done (Fake.platform 1 1000))) (Path Fake.shot)
        (Path "images/stage105.png") [1%Q] = Value (c, m) /\
      (m = None \/ (c < 4 # 5)%Q).
Proof.
  apply (run_click_task_verdict (Fake.platform 1 1000) Fake.shot
           "images/stage105.png" [1%Q] (3 # 4, 1 # 2)%Q (4 # 5)%Q 3 2
           Fake.start true (Fake.stage_done (Fake.platform 1 1000))).
  by vm_compute.
Defined.

Lemma failed_attempt_keeps_capture_witness :
  let P := Fake.platform 1 1000 in
  let w2 := after (after Fake.shown [Print (MsgNoMatch 0)]) [Sleep 2] in
  run_click_loop P 2 Fake.shot "images/teamselect.png" [1%Q]
    (9 # 10, 23 # 25)%Q (4 # 5)%Q 2 2 0 Fake.shown
  = run_click_loop P 1 Fake.shot "images/teamselect.png" [1%Q]
      (9 # 10, 23 # 25)%Q (4 # 5)%Q 2 2 (0 + 1) w2 /\
  files w2 = files Fake.shown /\
  (exists c, trace w2 = trace Fake.shown ++ [Print (MsgNoMatch c); Sleep 2]) /\
  (forall e, e ∈ drop (length (trace Fake.shown)) (trace w2) ->
             is_capture e = false).
Proof.
  apply (failed_attempt_keeps_capture (Fake.platform 1 1000) 1 Fake.shot
           "images/teamselect.png" [1%Q] (9 # 10, 23 # 25)%Q (4 # 5)%Q 2 2 0
           Fake.shown (after Fake.shown [Print (MsgNoMatch 0)])).
  - reflexivity.
  - by vm_compute.
Defined.

Lemma no_stamina_ends_scenario_witness :
  run_zhulu_105_task (Fake.platform 0 1000) 1 "images" "screenshot.png"
    (4 # 5)%Q [1%Q] 3 120 Fake.start
  = Returned tt
      (after (Fake.team_done (Fake.platform 0 1000))
         [MoveTo 4 4; Print MsgNoStamina]).
Proof.
  apply (no_stamina_ends_scenario (Fake.platform 0 1000) 0 "images"
           "screenshot.png" (4 # 5)%Q [1%Q] 3 120 Fake.start
           (Fake.stage_done (Fake.platform 0 1000))
           (Fake.team_done (Fake.platform 0 1000)) 1%Q (Some (0, 0, 2, 2))).
  - by vm_compute.
  - by vm_compute.
  - by vm_compute.
  - by vm_compute.
Defined.

(** The wait begins 5 seconds into the script with [max_battle_time = 20];
    the battle goes on for 1000 seconds.  The deadline test passes at 5 and at
    15 seconds and fails at 25: two polls, then the failure. *)
Lemma battle_timeout_ends_scenario_witness :
  trace (after_polls (Fake.platform 1 1000) "images/screenshot.png" 2
           (Fake.battle_begun (Fake.platform 1 1000)))
  = trace (Fake.battle_begun (Fake.platform 1 1000)) ++
    polls 2 "images/screenshot.png" /\
  forall fuel, (2 <= fuel)%nat ->
    run_zhulu_105_task (Fake.platform 1 1000) (S fuel) "images"
      "screenshot.png" (4 # 5)%Q [1%Q] 3 20 Fake.start
    = Returned tt
        (after (after_polls (Fake.platform 1 1000) "images/screenshot.png" 2
                  (Fake.battle_begun (Fake.platform 1 1000)))
           [Print MsgBattleFailed]).
Proof.
  apply (battle_timeout_ends_scenario (Fake.platform 1 1000) 2 "images"
           "screenshot.png" (4 # 5)%Q [1%Q] 3 20 Fake.start
           (Fake.stage_done (Fake.platform 1 1000))
           (Fake.team_done (Fake.platform 1 1000)) 0%Q (Some (0, 0, 2, 2))).
  - by vm_compute.
  - by vm_compute.
  - by vm_compute.
  - reflexivity.
  - intros [| [| k]] Hk; [by vm_compute | by vm_compute | lia].
  - intros [| [| k]] Hk; [| | lia];
      exists 0%Q, (Some (0, 0, 2, 2)); split; by vm_compute.
  - by vm_compute.
Defined.

(** C4 as stated fails.  The wait begins 5 seconds into the script with
    [max_battle_time = 5]; the game shows the success screen from 12 seconds
    on, so no capture taken before the deadline (at 10 seconds) matches.  The
    loop tests the deadline only before it sleeps: its one poll is taken at 15
    seconds, it matches, and the scenario goes on with the click task that
    dismisses the success screen. *)
Lemma success_after_deadline_is_accepted :
  run_click_task Fake.short_battle Fake.shot "images/stage105.png" [1%Q]
    (3 # 4, 1 # 2)%Q (4 # 5)%Q 3 2 Fake.start
  = Returned true (Fake.stage_done Fake.short_battle) /\
  run_click_task Fake.short_battle Fake.shot "images/teamselect.png" [1%Q]
    (9 # 10, 23 # 25)%Q (4 # 5)%Q 3 3
    (after (Fake.stage_done Fake.short_battle) [Print MsgEnterStage])
  = Returned true (Fake.team_done Fake.short_battle) /\
  multi_scale_template_matching Fake.short_battle
    (files (Fake.team_done Fake.short_battle)) (Path Fake.shot)
    (Path "images/buystamina.png") [1%Q]
  = Value (0%Q, Some (0, 0, 2, 2)) /\
  clock_advances Fake.short_battle /\
  clock Fake.short_battle (trace (Fake.battle_begun Fake.short_battle))
  = 5 * 1000000 /\
  no_match_before_deadline Fake.short_battle
    (Fake.battle_begun Fake.short_battle) Fake.shot "images/success.png"
    [1%Q] (4 # 5)%Q (5 * 1000000 + 5 * 1000000) /\
  run_zhulu_105_task Fake.short_battle 5 "images" "screenshot.png"
    (4 # 5)%Q [1%Q] 3 5 Fake.start
  = Returned tt Fake.short_battle_end /\
  take 9 (drop (length (trace (Fake.battle_begun Fake.short_battle)))
            (trace Fake.short_battle_end))
  = [Sleep 10; Screenshot; Save Fake.shot; Print MsgBattleSucceeded;
     Screenshot; Save Fake.shot; MoveTo 1 1; Click;
     Print (MsgClicked 1 1 1)].
Proof.
  split; [by vm_compute |]. split; [by vm_compute |].
  split; [by vm_compute |]. split; [apply fake_clock_advances |].
  split; [by vm_compute |]. split; [| split; by vm_compute].
  intros later t Hclock.
  change (below_threshold Fake.short_battle
            (Fake.battle_begun Fake.short_battle) Fake.shot
            "images/success.png" [1%Q] (4 # 5)%Q (Fake.game 1 12 t)).
  destruct (fake_game_cases 1 12 t) as [Hpic | [_ Hend]].
  - apply fake_other_screens_below_threshold; [by vm_compute | done].
  - exfalso. change (Fake.slept t * 1000000 < 5 * 1000000 + 5 * 1000000)
      in Hclock. lia.
Qed.

(** * Further properties *)

(** ** Matcher: ties, the initial pair, errors, the order of the scales *)

Section MatcherMore.
Context (P : Platform).
Implicit Types (image template : option GrayImage) (scales : list Q).

(** The loop over the scales, seen from the list: either no peak was above
    the initial confidence and the initial pair comes back, or the pair is
    that of the first scale whose peak is the highest. *)
Lemma scale_loop_first image template scales :
  forall best_confidence best_match c m,
    scale_loop P image template scales best_confidence best_match
      = Value (c, m) ->
    (c = best_confidence /\ m = best_match /\
     forall s, s ∈ scales ->
       exists v r, match_at_scale P image template s = Value (v, r) /\
                   (v <= best_confidence)%Q) \/
    (exists pre s post r,
        scales = pre ++ s :: post /\
        match_at_scale P image template s = Value (c, r) /\
        m = Some r /\ (best_confidence < c)%Q /\
        (forall s', s' ∈ pre ->
           exists v r', match_at_scale P image template s' = Value (v, r') /\
                        (v < c)%Q) /\
        (forall s', s' ∈ post ->
           exists v r', match_at_scale P image template s' = Value (v, r') /\
                        (v <= c)%Q)).
Proof.
  induction scales as [| scale rest IH]; intros bc bm c m Hrun.
  - simpl in Hrun. injection Hrun as <- <-. left. repeat split.
    intros s Hs. by apply elem_of_nil in Hs.
  - simpl in Hrun.
    destruct (match_at_scale P image template scale) as [[v r] |] eqn:Hpeak;
      simpl in Hrun; [| discriminate].
    destruct (Qgtb v bc) eqn:Hcmp.
    + apply Qltb_lt in Hcmp.
      destruct (IH _ _ _ _ Hrun)
        as [(-> & -> & Hrest)
           | (pre & s & post & r' & -> & Hs & -> & Hlt & Hpre & Hpost)].
      * right. exists [], scale, rest, r. repeat split; try done.
        intros s' Hs'. by apply elem_of_nil in Hs'.
      * right. exists (scale :: pre), s, post, r'. repeat split; try done.
        { eapply Qlt_trans; eauto. }
        intros s' Hs'. apply elem_of_cons in Hs' as [-> | Hs'];
          [| by apply Hpre].
        by exists v, r.
    + apply Qltb_ge in Hcmp.
      destruct (IH _ _ _ _ Hrun)
        as [(-> & -> & Hrest)
           | (pre & s & post & r' & -> & Hs & -> & Hlt & Hpre & Hpost)].
      * left. repeat split. intros s Hs.
        apply elem_of_cons in Hs as [-> | Hs]; [| by apply Hrest].
        by exists v, r.
      * right. exists (scale :: pre), s, post, r'. repeat split; try done.
        intros s' Hs'. apply elem_of_cons in Hs' as [-> | Hs'];
          [| by apply Hpre].
        exists v, r. split; [done |]. eapply Qle_lt_trans; eauto.
Qed.

(** The loop returns exactly when every scale can be matched. *)
Lemma scale_loop_returns image template scales :
  forall best_confidence best_match,
    (forall s, s ∈ scales ->
       exists v r, match_at_scale P image template s = Value (v, r)) ->
    exists c m,
      scale_loop P image template scales best_confidence best_match
        = Value (c, m).
Proof.
  induction scales as [| scale rest IH]; intros bc bm Hall.
  - by exists bc, bm.
  - destruct (Hall scale) as (v & r & Hpeak); [by left |].
    simpl. rewrite Hpeak. simpl.
    destruct (Qgtb v bc); apply IH; intros s Hs; apply Hall; by right.
Qed.

End MatcherMore.

(** X1.  When several scales reach the highest peak, the region returned is
    that of the first of them in the list: every scale before the winning one
    has a strictly lower peak, every scale after it a lower or equal one. *)
Theorem earliest_best_scale_wins (P : Platform)
    (fs : gmap string GrayImage) (image template : ImageArg)
    (scales : list Q) (c : Q) (r : Region) :
  multi_scale_template_matching P fs image template scales
    = Value (c, Some r) ->
  exists pre s post,
    scales = pre ++ s :: post /\
    match_at_scale P (load_gray P fs image) (load_gray P fs template) s
      = Value (c, r) /\
    (forall s', s' ∈ pre ->
       exists v r',
         match_at_scale P (load_gray P fs image) (load_gray P fs template) s'
           = Value (v, r') /\ (v < c)%Q) /\
    (forall s', s' ∈ post ->
       exists v r',
         match_at_scale P (load_gray P fs image) (load_gray P fs template) s'
           = Value (v, r') /\ (v <= c)%Q).
Proof.
  unfold multi_scale_template_matching. intros Hrun.
  destruct (scale_loop_first P _ _ _ _ _ _ _ Hrun)
    as [(_ & Hnone & _)
       | (pre & s & post & r' & -> & Hs & Hr & _ & Hpre & Hpost)];
    [discriminate |].
  injection Hr as ->. by exists pre, s, post.
Qed.

(** X2.  A region is returned exactly when the confidence returned is
    strictly above -1.  Without a region the confidence is the initial -1 and
    no scale has a peak above -1. *)
Theorem region_iff_above_sentinel (P : Platform)
    (fs : gmap string GrayImage) (image template : ImageArg)
    (scales : list Q) (c : Q) (m : option Region) :
  multi_scale_template_matching P fs image template scales = Value (c, m) ->
  (m = None /\ c = (-1)%Q /\
   forall s, s ∈ scales ->
     exists v r,
       match_at_scale P (load_gray P fs image) (load_gray P fs template) s
         = Value (v, r) /\ (v <= -1)%Q) \/
  (exists r, m = Some r /\ (-1 < c)%Q).
Proof.
  unfold multi_scale_template_matching. intros Hrun.
  destruct (scale_loop_first P _ _ _ _ _ _ _ Hrun)
    as [(-> & -> & Hall)
       | (pre & s & post & r & _ & _ & -> & Hlt & _)].
  - by left.
  - right. by exists r.
Qed.

(** X3.  One scale that cannot be matched (the resize or the matching raises)
    makes the whole call raise, wherever it stands in the list and whatever
    the other scales found. *)
Theorem failing_scale_fails_matching (P : Platform)
    (fs : gmap string GrayImage) (image template : ImageArg)
    (scales : list Q) (s : Q) :
  s ∈ scales ->
  match_at_scale P (load_gray P fs image) (load_gray P fs template) s
    = Cv2Error ->
  multi_scale_template_matching P fs image template scales = Cv2Error.
Proof.
  unfold multi_scale_template_matching. intros Hs Hfail.
  destruct (scale_loop P _ _ scales (-1) None) as [[c m] |] eqn:Hrun;
    [| reflexivity].
  destruct (scale_loop_inv P _ _ _ _ _ _ _ Hrun) as (_ & Hall & _).
  destruct (Hall s Hs) as (v & r & Hpeak & _). congruence.
Qed.

(** X4.  The confidence does not depend on the order of the scales: if the
    call returns for a list, it returns for every permutation of it, with an
    equal confidence.  (The region may differ, see X1.) *)
Theorem confidence_ignores_scale_order (P : Platform)
    (fs : gmap string GrayImage) (image template : ImageArg)
    (scales scales' : list Q) (c : Q) (m : option Region) :
  scales ≡ₚ scales' ->
  multi_scale_template_matching P fs image template scales = Value (c, m) ->
  exists c' m',
    multi_scale_template_matching P fs image template scales'
      = Value (c', m') /\ (c == c')%Q.
Proof.
  unfold multi_scale_template_matching. intros Hperm Hrun.
  destruct (scale_loop_inv P _ _ _ _ _ _ _ Hrun) as (Hlow & Hall & Hsrc).
  destruct (scale_loop_returns P (load_gray P fs image)
              (load_gray P fs template) scales' (-1)%Q None)
    as (c' & m' & Hrun').
  { intros s Hs. rewrite <- Hperm in Hs.
    destruct (Hall s Hs) as (v & r & Hpeak & _). by exists v, r. }
  exists c', m'. split; [done |].
  destruct (scale_loop_inv P _ _ _ _ _ _ _ Hrun') as (Hlow' & Hall' & Hsrc').
  apply Qle_antisym.
  - destruct Hsrc as [(-> & _) | (s & r & Hs & Hpeak & _)]; [done |].
    rewrite Hperm in Hs. destruct (Hall' s Hs) as (v & r' & Hpeak' & Hle).
    rewrite Hpeak in Hpeak'. by injection Hpeak' as <- <-.
  - destruct Hsrc' as [(-> & _) | (s & r & Hs & Hpeak & _)]; [done |].
    rewrite <- Hperm in Hs. destruct (Hall s Hs) as (v & r' & Hpeak' & Hle).
    rewrite Hpeak in Hpeak'. by injection Hpeak' as <- <-.
Qed.

(** ** Clicker: what a call leaves behind, and where it clicks *)

Lemma click_count_app (t1 t2 : list Event) :
  click_count (t1 ++ t2) = (click_count t1 + click_count t2)%nat.
Proof.
  induction t1 as [| e t1 IH]; simpl; [done |].
  destruct e; simpl; by rewrite IH.
Qed.

(** [int(width * ratio)] stays within [0, width] for a ratio in [0, 1]. *)
Lemma py_int_ratio (width : Z) (ratio : Q) :
  0 <= width -> (0 <= ratio)%Q -> (ratio <= 1)%Q ->
  0 <= py_int (inject_Z width * ratio) <= width.
Proof.
  destruct ratio as [n d]. unfold Qle, py_int. simpl.
  intros Hw Hn Hd. rewrite Z.mul_1_r in Hn, Hd. rewrite Z.mul_1_l in Hd.
  rewrite Z.quot_div_nonneg by lia. split.
  - apply Z.div_pos; lia.
  - apply Z.div_le_upper_bound; [lia |]. nia.
Qed.

(** The regions the matcher returns have the size of a picture. *)
Lemma matched_region_size (P : Platform) (fs : gmap string GrayImage)
    (image template : ImageArg) (scales : list Q) (c : Q)
    (x y width height : Z) :
  multi_scale_template_matching P fs image template scales
    = Value (c, Some (x, y, width, height)) ->
  0 <= width /\ 0 <= height.
Proof.
  unfold multi_scale_template_matching. intros Hrun.
  destruct (scale_loop_inv P _ _ _ _ _ _ _ Hrun) as (_ & _ & Hsrc).
  destruct Hsrc as [(_ & Hnone) | (s & r & _ & Hpeak & Hr & _)];
    [discriminate |].
  injection Hr as <-.
  destruct (match_at_scale_inv P _ _ _ _ _ Hpeak)
    as (img & tpl & st & res & mn & mnl & mxl & _ & _ & _ & _ & _ & Hr).
  injection Hr as _ _ -> ->. unfold shape0, shape1.
  split; [destruct st |]; lia.
Qed.

(** X5.  A call of the clicker that returns has left the files as they were
    and has taken no capture; it returns [True] exactly when it clicked, and
    then it clicked once. *)
Theorem clicker_clicks_once_iff_true (P : Platform)
    (image_path template_path : string) (scales : list Q) (offset : Q * Q)
    (threshold : Q) (w : World) (b : bool) (w' : World) :
  locate_and_click P image_path template_path scales offset threshold w
    = Returned b w' ->
  files w' = files w /\
  exists later,
    trace w' = trace w ++ later /\
    click_count later = (if b then 1 else 0)%nat /\
    forall e, e ∈ later -> is_capture e = false.
Proof.
  intros Hrun.
  destruct (locate_and_click_cases P image_path template_path scales offset
              threshold w)
    as [(_ & Hc) | [(c & m & _ & _ & Hc) | (c & r & _ & _ & Hc)]];
    rewrite Hrun in Hc; try discriminate; injection Hc as -> ->.
  - split; [done |]. exists [Print (MsgNoMatch c)]. repeat split.
    intros e He. apply list_elem_of_singleton in He. by subst.
  - split; [done |]. destruct r as [[[x y] width] height].
    eexists. split; [reflexivity |]. split; [reflexivity |].
    intros e He. simpl in He.
    repeat (apply elem_of_cons in He as [-> | He]; [done |]).
    by apply elem_of_nil in He.
Qed.

(** X6.  With offset ratios in [0, 1], the point clicked lies in the matched
    region: between its left and right edge, and between its top and bottom
    edge. *)
Theorem click_lands_in_region (P : Platform)
    (image_path template_path : string) (scales : list Q) (offset : Q * Q)
    (threshold : Q) (w : World) (c : Q) (x y width height : Z) :
  multi_scale_template_matching P (files w) (Path image_path)
    (Path template_path) scales = Value (c, Some (x, y, width, height)) ->
  (threshold <= c)%Q ->
  (0 <= fst offset)%Q -> (fst offset <= 1)%Q ->
  (0 <= snd offset)%Q -> (snd offset <= 1)%Q ->
  exists click_x click_y,
    locate_and_click P image_path template_path scales offset threshold w
      = Returned true
          (after w [MoveTo click_x click_y; Click;
                    Print (MsgClicked click_x click_y c)]) /\
    x <= click_x <= x + width /\ y <= click_y <= y + height.
Proof.
  intros Hm Hc Hx0 Hx1 Hy0 Hy1.
  destruct (matched_region_size _ _ _ _ _ _ _ _ _ _ Hm) as [Hw Hh].
  pose proof (py_int_ratio width (fst offset) Hw Hx0 Hx1).
  pose proof (py_int_ratio height (snd offset) Hh Hy0 Hy1).
  exists (x + py_int (inject_Z width * fst offset)),
         (y + py_int (inject_Z height * snd offset)).
  split; [| lia].
  by rewrite (locate_and_click_hit P _ _ _ offset _ _ _ _ Hm Hc).
Qed.

(** ** Task runner: termination, edge cases, clicks, files *)

Lemma after_nil (w : World) : after w [] = w.
Proof. destruct w. unfold after. simpl. by rewrite app_nil_r. Qed.

Section RunnerMore.
Context (P : Platform) (image_path template_path : string)
  (scales : list Q) (click_offset : Q * Q) (threshold : Q)
  (retry_times delay : Z).

Local Abbreviation matching w :=
  (multi_scale_template_matching P (files w) (Path image_path)
     (Path template_path) scales).
Local Abbreviation clicker :=
  (locate_and_click P image_path template_path scales click_offset
     threshold).
Local Abbreviation loop fuel :=
  (run_click_loop P fuel image_path template_path scales click_offset
     threshold retry_times delay).

(** Once an attempt finds nothing, the stored capture stays, and so does the
    verdict of every later attempt. *)
Lemma run_click_loop_doomed (c : Q) (m : option Region) (fuel : nat) :
  forall (retry_num : Z) (w : World),
    (Z.to_nat (retry_times - retry_num) <= fuel)%nat ->
    matching w = Value (c, m) ->
    m = None \/ (c < threshold)%Q ->
    loop fuel retry_num w
      = Returned (false, Z.max retry_num retry_times)
          (after w (missed_attempts (Z.to_nat (retry_times - retry_num))
                      c delay)).
Proof.
  induction fuel as [| fuel IH]; intros n w Hfuel Hm Hlow.
  - rewrite run_click_loop_exit by lia.
    replace (Z.to_nat (retry_times - n)) with 0%nat by lia.
    simpl. rewrite after_nil. f_equal. f_equal. lia.
  - destruct (Z.lt_ge_cases n retry_times) as [Hlt | Hge].
    + rewrite (run_click_loop_miss _ _ _ _ _ _ _ _ _ _ _
                 (after w [Print (MsgNoMatch c)]) Hlt)
        by (eapply locate_and_click_miss; eauto).
      rewrite IH; [| lia | done | done].
      rewrite !after_after.
      replace (Z.to_nat (retry_times - n))
        with (S (Z.to_nat (retry_times - (n + 1)))) by lia.
      simpl. f_equal. f_equal. lia.
    + rewrite run_click_loop_exit by lia.
      replace (Z.to_nat (retry_times - n)) with 0%nat by lia.
      simpl. rewrite after_nil. f_equal. f_equal. lia.
Qed.

Lemma locate_and_click_trace (w : World) (b : bool) (w' : World) :
  clicker w = Returned b w' ->
  exists later,
    trace w' = trace w ++ later /\
    click_count later = (if b then 1 else 0)%nat.
Proof.
  intros Hrun.
  destruct (locate_and_click_cases P image_path template_path scales
              click_offset threshold w)
    as [(_ & Hc) | [(c & m & _ & _ & Hc) | (c & r & _ & _ & Hc)]];
    rewrite Hrun in Hc; try discriminate; injection Hc as -> ->.
  - by exists [Print (MsgNoMatch c)].
  - destruct r as [[[x y] width] height]. eexists. by split.
Qed.

Lemma unsuccessful_attempt_clicks (w w1 : World) :
  unsuccessful_attempt P image_path template_path scales click_offset
    threshold delay w w1 ->
  exists later, trace w1 = trace w ++ later /\ (click_count later <= 1)%nat.
Proof.
  intros [w0 w0' Hc | w0 w0' c r Hc _ _];
    destruct (locate_and_click_trace w0 _ _ Hc)
      as (later & Ht & Hn).
  - exists (later ++ [Sleep delay]). simpl. rewrite Ht, click_count_app, Hn.
    split; [by rewrite <- app_assoc | simpl; lia].
  - exists (later ++ [Sleep delay; Screenshot; Save image_path]). simpl.
    rewrite Ht, click_count_app, Hn.
    split; [by rewrite <- !app_assoc | simpl; lia].
Qed.

Lemma unsuccessful_attempts_clicks (k : nat) (w w1 : World) :
  unsuccessful_attempts P image_path template_path scales click_offset
    threshold delay k w w1 ->
  exists later, trace w1 = trace w ++ later /\ (click_count later <= k)%nat.
Proof.
  induction 1 as [w | n w wa wb Hstep _ IH].
  - exists []. by rewrite app_nil_r.
  - destruct (unsuccessful_attempt_clicks _ _ Hstep) as (l1 & Ht1 & Hn1).
    destruct IH as (l2 & Ht2 & Hn2).
    exists (l1 ++ l2). rewrite Ht2, Ht1, click_count_app.
    split; [by rewrite <- app_assoc | lia].
Qed.

End RunnerMore.

Lemma run_click_loop_doomed_task (P : Platform)
    (image_path template_path : string) (scales : list Q)
    (click_offset : Q * Q) (threshold : Q) (retry_times delay : Z)
    (w : World) (c : Q) (m : option Region) :
  multi_scale_template_matching P (files (captured P image_path w))
    (Path image_path) (Path template_path) scales = Value (c, m) ->
  m = None \/ (c < threshold)%Q ->
  run_click_task P image_path template_path scales click_offset threshold
    retry_times delay w
  = Returned false
      (after (captured P image_path w)
         (missed_attempts (Z.to_nat retry_times) c delay)).
Proof.
  intros Hm Hlow.
  unfold run_click_task, run_click_task_counted, bind, capture_to.
  rewrite (run_click_loop_doomed P _ _ _ click_offset _ retry_times delay
             c m (Z.to_nat retry_times) 0 _ ltac:(lia) Hm Hlow).
  by rewrite Z.sub_0_r.
Qed.

(** X7.  The task runner always comes to an end: it returns a verdict, or an
    error of OpenCV ends it.  Its loop cannot go on for ever, whatever the
    screen shows. *)
Theorem run_click_task_terminates (P : Platform)
    (image_path template_path : string) (scales : list Q)
    (click_offset : Q * Q) (threshold : Q) (retry_times delay : Z)
    (w : World) :
  exists w',
    (exists b,
        run_click_task P image_path template_path scales click_offset
          threshold retry_times delay w = Returned b w') \/
    run_click_task P image_path template_path scales click_offset threshold
      retry_times delay w = Crashed w'.
Proof.
  pose proof (run_click_task_never_out_of_fuel P image_path template_path
                scales click_offset threshold retry_times delay w) as Hfuel.
  destruct (run_click_task _ _ _ _ _ _ _ _ w) as [b w' | w' |].
  - exists w'. left. by exists b.
  - exists w'. by right.
  - done.
Qed.

(** X8.  With [retry_times] zero or negative the task runner takes its first
    capture and returns [False]: the clicker is not called even once. *)
Theorem no_retries_no_attempt (P : Platform)
    (image_path template_path : string) (scales : list Q)
    (click_offset : Q * Q) (threshold : Q) (retry_times delay : Z)
    (w : World) :
  retry_times <= 0 ->
  run_click_task P image_path template_path scales click_offset threshold
    retry_times delay w
  = Returned false (captured P image_path w).
Proof.
  intros Hno. unfold run_click_task, run_click_task_counted, bind, capture_to.
  by rewrite run_click_loop_exit.
Qed.

(** X9.  If the template is not found on the first capture, the task is lost:
    no new capture is taken between failed attempts, so each of the
    [retry_times] attempts finds the same thing, prints the same confidence
    and waits; the task runner returns [False] without a click, whatever the
    screen shows in the meantime. *)
Theorem first_miss_dooms_task (P : Platform)
    (image_path template_path : string) (scales : list Q)
    (click_offset : Q * Q) (threshold : Q) (retry_times delay : Z)
    (w : World) (c : Q) (m : option Region) :
  multi_scale_template_matching P (files (captured P image_path w))
    (Path image_path) (Path template_path) scales = Value (c, m) ->
  m = None \/ (c < threshold)%Q ->
  run_click_task P image_path template_path scales click_offset threshold
    retry_times delay w
  = Returned false
      (after (captured P image_path w)
         (missed_attempts (Z.to_nat retry_times) c delay)).
Proof. apply run_click_loop_doomed_task. Qed.

(** X10.  A run of the task runner that returns has clicked at most
    [retry_times] times, and at least once if it returns [True]. *)
Theorem clicks_bounded_by_retries (P : Platform)
    (image_path template_path : string) (scales : list Q)
    (click_offset : Q * Q) (threshold : Q) (retry_times delay : Z)
    (w : World) (b : bool) (w' : World) :
  run_click_task P image_path template_path scales click_offset threshold
    retry_times delay w = Returned b w' ->
  exists later,
    trace w' = trace w ++ later /\
    (click_count later <= Z.to_nat retry_times)%nat /\
    (b = true -> (1 <= click_count later)%nat).
Proof.
  unfold run_click_task, bind at 1. intros Hrun.
  destruct (run_click_task_counted _ _ _ _ _ _ _ _ w)
    as [[s j] wr | wr |] eqn:Hcounted; try discriminate.
  injection Hrun as <- <-.
  unfold run_click_task_counted, bind, capture_to in Hcounted.
  destruct (run_click_loop_returns _ _ _ _ _ _ _ _ _ _ _ _ _ _ Hcounted)
    as (k & w1 & Hk & Hj & Hb).
  destruct (unsuccessful_attempts_clicks _ _ _ _ _ _ _ _ _ _ Hk)
    as (l1 & Ht1 & Hn1).
  simpl in Ht1. destruct s.
  - destruct Hb as (Hlt & w2 & c & m & Hc & -> & _).
    destruct (locate_and_click_trace _ _ _ _ _ _ _ _ _ Hc)
      as (l2 & Ht2 & Hn2).
    exists ([Screenshot; Save image_path] ++ l1 ++ l2 ++
            [Sleep delay; Screenshot; Save image_path]).
    simpl. rewrite Ht2, Ht1. rewrite <- !app_assoc. split; [done |].
    set (rest := [Sleep delay; Screenshot; Save image_path]).
    change (click_count (l1 ++ l2 ++ rest) <= Z.to_nat retry_times /\
            (true = true -> 1 <= click_count (l1 ++ l2 ++ rest)))%nat.
    rewrite !click_count_app, Hn2. simpl. lia.
  - destruct Hb as [<- Hmax].
    exists ([Screenshot; Save image_path] ++ l1).
    rewrite Ht1. rewrite <- app_assoc. split; [done |].
    split; [| discriminate].
    change (click_count l1 <= Z.to_nat retry_times)%nat. lia.
Qed.

(** ** Captures: only the screenshot path is ever saved to *)

Lemma saves_only_to_refl (path : string) (w : World) : saves_only_to path w w.
Proof.
  exists []. split; [by rewrite app_nil_r |].
  intros p Hp. by apply elem_of_nil in Hp.
Qed.

Lemma saves_only_to_trans (path : string) (w1 w2 w3 : World) :
  saves_only_to path w1 w2 -> saves_only_to path w2 w3 ->
  saves_only_to path w1 w3.
Proof.
  intros (l1 & Ht1 & Hs1) (l2 & Ht2 & Hs2). exists (l1 ++ l2). split.
  - by rewrite Ht2, Ht1, <- app_assoc.
  - intros p Hp. apply elem_of_app in Hp as [Hp | Hp]; auto.
Qed.

Lemma saving_ret {A : Type} (path : string) (a : A) :
  saving_only_to path (ret a).
Proof. intros w. apply saves_only_to_refl. Qed.

Lemma saving_bind {A B : Type} (path : string) (c : M A) (k : A -> M B) :
  saving_only_to path c ->
  (forall a, saving_only_to path (k a)) ->
  saving_only_to path (bind c k).
Proof.
  intros Hc Hk w. unfold bind. specialize (Hc w).
  destruct (c w) as [a w1 | w1 |]; [| done | done].
  specialize (Hk a w1).
  destruct (k a w1) as [b w2 | w2 |]; [| | done];
    eapply saves_only_to_trans; eauto.
Qed.

(** A call other than [save] saves nothing. *)
Lemma saving_emit (path : string) (e : Event) :
  is_capture e = false -> saving_only_to path (emit e).
Proof.
  intros He w. exists [e]. split; [done |].
  intros p Hp. apply list_elem_of_singleton in Hp. by subst e.
Qed.

Lemma saving_on_files {A : Type} (path : string)
    (f : gmap string GrayImage -> Exc A) :
  saving_only_to path (on_files f).
Proof.
  intros w. unfold on_files.
  destruct (f (files w)); apply saves_only_to_refl.
Qed.


Lemma saving_capture_to (P : Platform) (path : string) :
  saving_only_to path (capture_to P path).
Proof.
  intros w. exists [Screenshot; Save path]. split; [done |].
  intros p Hp. apply elem_of_cons in Hp as [Hp | Hp]; [done |].
  apply list_elem_of_singleton in Hp. by injection Hp.
Qed.

Lemma saving_locate_and_click (P : Platform) (path image_path
    template_path : string) (scales : list Q) (offset : Q * Q)
    (threshold : Q) :
  saving_only_to path
    (locate_and_click P image_path template_path scales offset threshold).
Proof.
  apply saving_bind; [apply saving_on_files |].
  intros [c [[[[x y] width] height] |]].
  - destruct (Qgeb c threshold);
      repeat (apply saving_bind; [by apply saving_emit | intros _]);
      apply saving_ret.
  - apply saving_bind; [by apply saving_emit | intros _]. apply saving_ret.
Qed.

Lemma saving_run_click_loop (P : Platform) (image_path template_path : string)
    (scales : list Q) (click_offset : Q * Q) (threshold : Q)
    (retry_times delay : Z) (fuel : nat) :
  forall retry_num,
    saving_only_to image_path
      (run_click_loop P fuel image_path template_path scales click_offset
         threshold retry_times delay retry_num).
Proof.
  induction fuel as [| fuel IH]; intros n; cbn [run_click_loop];
    destruct (n <? retry_times); try apply saving_ret; [done |].
  apply saving_bind; [apply saving_locate_and_click | intros success].
  apply saving_bind; [by apply saving_emit | intros _].
  destruct success; cbn [negb]; [| apply IH].
  apply saving_bind; [apply saving_capture_to | intros _].
  apply saving_bind; [apply saving_on_files | intros [c m]].
  destruct (negb (truthy m) || Qltb c threshold);
    [apply saving_ret | apply IH].
Qed.

Lemma saving_run_click_task (P : Platform) (image_path template_path : string)
    (scales : list Q) (click_offset : Q * Q) (threshold : Q)
    (retry_times delay : Z) :
  saving_only_to image_path
    (run_click_task P image_path template_path scales click_offset threshold
       retry_times delay).
Proof.
  apply saving_bind; [| intros [success j]; apply saving_ret].
  apply saving_bind; [apply saving_capture_to | intros _].
  apply saving_run_click_loop.
Qed.



(** X11.  However a click task ends (a verdict or an OpenCV error), every
    [save] it called was called with [image_path]: the task saves its
    captures under the screenshot path and under no other path. *)
Theorem click_task_writes_only_capture (P : Platform)
    (image_path template_path : string) (scales : list Q)
    (click_offset : Q * Q) (threshold : Q) (retry_times delay : Z)
    (w w' : World) :
  (exists b,
      run_click_task P image_path template_path scales click_offset
        threshold retry_times delay w = Returned b w') \/
  run_click_task P image_path template_path scales click_offset threshold
    retry_times delay w = Crashed w' ->
  exists later,
    trace w' = trace w ++ later /\
    forall p, Save p ∈ later -> p = image_path.
Proof.
  intros Hend.
  pose proof (saving_run_click_task P image_path template_path scales
                click_offset threshold retry_times delay w) as Hsaves.
  destruct Hend as [[b Hrun] | Hrun]; rewrite Hrun in Hsaves;
    apply Hsaves.
Qed.


(** ** Scenario controller: the wait, the rounds, the fatal first step *)

(** X13.  If the clock advances, the wait for the battle comes to an end
    after at most [bound] polls, where [bound] sleeps of 10 seconds reach the
    deadline, whatever the captures show: it gives up after [n] polls, or the
    [n]-th poll matches and it prints the success, or the matching of the
    [n]-th poll raises. *)
Theorem wait_battle_polls_bounded (P : Platform)
    (screenshot_file success_file : string) (scales : list Q)
    (threshold : Q) (max_time_out : Z) (bound : nat) :
  clock_advances P ->
  forall (w : World) (fuel : nat),
    max_time_out - clock P (trace w) <= Z.of_nat bound * 10000000 ->
    (bound <= fuel)%nat ->
    exists (n : nat) (w' : World),
      (n <= bound)%nat /\
      ((wait_battle P fuel screenshot_file success_file scales threshold
          max_time_out w = Returned false w' /\
        trace w' = trace w ++ polls n screenshot_file) \/
       (wait_battle P fuel screenshot_file success_file scales threshold
          max_time_out w = Returned true w' /\
        (1 <= n)%nat /\
        trace w' = trace w ++ polls n screenshot_file ++
                   [Print MsgBattleSucceeded]) \/
       (wait_battle P fuel screenshot_file success_file scales threshold
          max_time_out w = Crashed w' /\
        (1 <= n)%nat /\
        trace w' = trace w ++ polls n screenshot_file)).
Proof.
  intros [Hsleep Hcapture].
  induction bound as [| bound IH]; intros w fuel Hleft Hfuel.
  - exists 0%nat, w. split; [done |]. left.
    split; [apply wait_battle_exit; lia | by rewrite app_nil_r].
  - destruct (Z.lt_ge_cases (clock P (trace w)) max_time_out)
      as [Hearly | Hlate].
    + destruct fuel as [| fuel]; [lia |].
      rewrite (wait_battle_step _ _ _ _ _ _ _ _ Hearly).
      set (w1 := captured P screenshot_file (after w [Sleep 10])).
      assert (Ht1 : trace w1 = trace w ++ polls 1 screenshot_file).
      { simpl. by rewrite <- app_assoc. }
      destruct (multi_scale_template_matching P (files w1) _ _ _)
        as [[c m] |].
      * destruct (Qgeb c threshold).
        -- exists 1%nat, (after w1 [Print MsgBattleSucceeded]).
           split; [lia |]. right; left. split; [done |]. split; [lia |].
           cbn [after trace]. rewrite Ht1. by rewrite <- !app_assoc.
        -- destruct (IH w1 fuel) as (n & w' & Hn & Hend); [| lia |].
           { rewrite Ht1. simpl. specialize (Hsleep (trace w)).
             specialize (Hcapture (trace w ++ [Sleep 10]) screenshot_file).
             rewrite <- app_assoc in Hcapture. simpl in Hcapture. lia. }
           exists (S n), w'. split; [lia |].
           destruct Hend as [[-> Ht] | [(-> & H1 & Ht) | (-> & H1 & Ht)]];
             rewrite Ht1 in Ht; rewrite <- app_assoc in Ht.
           ++ left. by split.
           ++ right; left. split; [done |]. split; [lia | done].
           ++ right; right. split; [done |]. split; [lia | done].
      * exists 1%nat, w1. split; [lia |]. right; right.
        split; [done |]. split; [lia | done].
    + exists 0%nat, w. split; [lia |]. left.
      split; [by apply wait_battle_exit | by rewrite app_nil_r].
Qed.

(** X14.  A round in which every step succeeds is followed by the next round:
    the scenario prints that it continues and starts over with the stage
    selection in the world the round has left. *)
Theorem full_round_starts_next_round (P : Platform) (fuel : nat)
    (image_path game_screenshot_path : string) (confidence_threshold : Q)
    (scales : list Q) (retry_times max_battle_time : Z)
    (w w1 w2 w4 w5 w6 : World) (c : Q) (m : option Region) :
  let screenshot_file := os_path_join P image_path game_screenshot_path in
  let template name := os_path_join P image_path name in
  let w3 := after w2 [MoveTo 4 4; Print MsgStartBattle] in
  let max_time_out := clock P (trace w3) + max_battle_time * 1000000 in
  run_click_task P screenshot_file (template "stage105.png") scales
    (3 # 4, 1 # 2)%Q confidence_threshold retry_times 2 w
    = Returned true w1 ->
  run_click_task P screenshot_file (template "teamselect.png") scales
    (9 # 10, 23 # 25)%Q confidence_threshold retry_times 3
    (after w1 [Print MsgEnterStage]) = Returned true w2 ->
  multi_scale_template_matching P (files w2) (Path screenshot_file)
    (Path (template "buystamina.png")) scales = Value (c, m) ->
  (c < confidence_threshold)%Q ->
  wait_battle P fuel screenshot_file (template "success.png") scales
    confidence_threshold max_time_out w3 = Returned true w4 ->
  run_click_task P screenshot_file (template "success.png") scales
    (1 # 2, 1 # 2)%Q confidence_threshold retry_times 2 w4
    = Returned true w5 ->
  run_click_task P screenshot_file (template "return.png") scales
    (1 # 2, 1 # 2)%Q confidence_threshold retry_times 3 w5
    = Returned true w6 ->
  run_zhulu_105_task P (S fuel) image_path game_screenshot_path
    confidence_threshold scales retry_times max_battle_time w
  = run_zhulu_105_task P fuel image_path game_screenshot_path
      confidence_threshold scales retry_times max_battle_time
      (after w6 [Print MsgNextLoop]).
Proof.
  cbv zeta beta. intros Hstage Hteam Hstamina Hc Hwait Hdismiss Hreturn.
  cbn [run_zhulu_105_task].
  unfold bind at 1. rewrite Hstage. cbn [negb].
  unfold bind at 1. unfold emit at 1.
  unfold bind at 1. rewrite Hteam. cbn [negb].
  unfold bind at 1. unfold emit at 1.
  unfold bind at 1. unfold on_files at 1. cbn [files after].
  rewrite Hstamina. apply Qgeb_lt in Hc. rewrite Hc.
  unfold bind at 1. unfold emit at 1. rewrite after_after.
  unfold bind at 1. unfold now at 1.
  unfold bind at 1. cbn [app]. rewrite Hwait. cbn [negb].
  unfold bind at 1. rewrite Hdismiss. cbn [negb].
  unfold bind at 1. rewrite Hreturn. cbn [negb].
  unfold bind at 1. unfold emit at 1. reflexivity.
Qed.

(** X15.  If the stage template is not found on the first capture of a
    round, the scenario ends in that round without moving the pointer: the
    [retry_times] attempts of the first click task all look at that capture,
    then the failure is printed. *)
Theorem stage_not_found_ends_scenario (P : Platform) (fuel : nat)
    (image_path game_screenshot_path : string) (confidence_threshold : Q)
    (scales : list Q) (retry_times max_battle_time : Z)
    (w : World) (c : Q) (m : option Region) :
  let screenshot_file := os_path_join P image_path game_screenshot_path in
  let template name := os_path_join P image_path name in
  multi_scale_template_matching P (files (captured P screenshot_file w))
    (Path screenshot_file) (Path (template "stage105.png")) scales
    = Value (c, m) ->
  m = None \/ (c < confidence_threshold)%Q ->
  run_zhulu_105_task P (S fuel) image_path game_screenshot_path
    confidence_threshold scales retry_times max_battle_time w
  = Returned tt
      (after (captured P screenshot_file w)
         (missed_attempts (Z.to_nat retry_times) c 2 ++
          [Print MsgEnterTeamFailed])) /\
  forall e,
    e ∈ [Screenshot; Save screenshot_file] ++
        missed_attempts (Z.to_nat retry_times) c 2 ++
        [Print MsgEnterTeamFailed] ->
    is_pointer e = false.
Proof.
  cbv zeta beta. intros Hm Hlow. split.
  - cbn [run_zhulu_105_task]. unfold bind at 1.
    rewrite (run_click_loop_doomed_task P _ _ _ (3 # 4, 1 # 2)%Q _
               retry_times 2 w c m Hm Hlow).
    cbn [negb]. unfold emit. by rewrite after_after.
  - intros e He. apply elem_of_app in He as [He | He].
    { repeat (apply elem_of_cons in He as [-> | He]; [done |]).
      by apply elem_of_nil in He. }
    apply elem_of_app in He as [He | He].
    + induction (Z.to_nat retry_times) as [| n IH]; simpl in He.
      * by apply elem_of_nil in He.
      * repeat (apply elem_of_cons in He as [-> | He]; [done |]).
        by apply IH.
    + apply list_elem_of_singleton in He. by subst.
Qed.


(** ** Concrete runs for the further properties *)

(** The scale 1.0 twice: both peaks are 1, the first one is kept. *)
Lemma earliest_best_scale_wins_witness :
  exists pre s post,
    [1%Q; 1%Q] = pre ++ s :: post /\
    match_at_scale demo
      (load_gray demo (files Fake.shown) (Path Fake.shot))
      (load_gray demo (files Fake.shown) (Path "images/stage105.png")) s
    = Value (1%Q, (0, 0, 2, 2)) /\
    (forall s', s' ∈ pre ->
       exists v r',
         match_at_scale demo
           (load_gray demo (files Fake.shown) (Path Fake.shot))
           (load_gray demo (files Fake.shown) (Path "images/stage105.png"))
           s' = Value (v, r') /\ (v < 1)%Q) /\
    (forall s', s' ∈ post ->
       exists v r',
         match_at_scale demo
           (load_gray demo (files Fake.shown) (Path Fake.shot))
           (load_gray demo (files Fake.shown) (Path "images/stage105.png"))
           s' = Value (v, r') /\ (v <= 1)%Q).
Proof.
  apply (earliest_best_scale_wins demo (files Fake.shown) (Path Fake.shot)
           (Path "images/stage105.png") [1%Q; 1%Q] 1%Q (0, 0, 2, 2)).
  by vm_compute.
Defined.

Lemma region_iff_above_sentinel_witness :
  (Some (0, 0, 2, 2) = None /\ 1%Q = (-1)%Q /\
   forall s, s ∈ [1%Q] ->
     exists v r,
       match_at_scale demo
         (load_gray demo (files Fake.shown) (Path Fake.shot))
         (load_gray demo (files Fake.shown) (Path "images/stage105.png")) s
       = Value (v, r) /\ (v <= -1)%Q) \/
  (exists r, Some (0, 0, 2, 2) = Some r /\ (-1 < 1)%Q).
Proof.
  apply (region_iff_above_sentinel demo (files Fake.shown) (Path Fake.shot)
           (Path "images/stage105.png") [1%Q] 1%Q (Some (0, 0, 2, 2))).
  by vm_compute.
Defined.

(** A template of 2 x 2 pixels cannot be resized by 0.25. *)
Lemma failing_scale_fails_matching_witness :
  multi_scale_template_matching demo (files Fake.shown) (Path Fake.shot)
    (Path "images/stage105.png") [1%Q; (1 # 4)%Q] = Cv2Error.
Proof.
  apply (failing_scale_fails_matching demo (files Fake.shown)
           (Path Fake.shot) (Path "images/stage105.png") [1%Q; (1 # 4)%Q]
           (1 # 4)%Q).
  - set_solver.
  - by vm_compute.
Defined.

Lemma confidence_ignores_scale_order_witness :
  exists c' m',
    multi_scale_template_matching demo Fake.big_disk (Path Fake.shot)
      (Path "images/big.png") [(1 # 2)%Q; 1%Q] = Value (c', m') /\
    (1 == c')%Q.
Proof.
  apply (confidence_ignores_scale_order demo Fake.big_disk (Path Fake.shot)
           (Path "images/big.png") [1%Q; (1 # 2)%Q] [(1 # 2)%Q; 1%Q]
           1%Q (Some (2, 1, 2, 2))).
  - apply perm_swap.
  - by vm_compute.
Defined.

Lemma clicker_clicks_once_iff_true_witness :
  files (after Fake.shown [Print (MsgNoMatch 0)]) = files Fake.shown /\
  exists later,
    trace (after Fake.shown [Print (MsgNoMatch 0)])
      = trace Fake.shown ++ later /\
    click_count later = 0%nat /\
    forall e, e ∈ later -> is_capture e = false.
Proof.
  apply (clicker_clicks_once_iff_true demo Fake.shot "images/teamselect.png"
           [1%Q] (9 # 10, 23 # 25)%Q (4 # 5)%Q Fake.shown false
           (after Fake.shown [Print (MsgNoMatch 0)])).
  by vm_compute.
Defined.

Lemma click_lands_in_region_witness :
  exists click_x click_y,
    locate_and_click Fake.example_platform Fake.shot "images/stage105.png"
      [1%Q] (3 # 4, 1 # 2)%Q (4 # 5)%Q Fake.example_start
    = Returned true
        (after Fake.example_start
           [MoveTo click_x click_y; Click;
            Print (MsgClicked click_x click_y (19 # 20))]) /\
    100 <= click_x <= 100 + 50 /\ 200 <= click_y <= 200 + 30.
Proof.
  apply (click_lands_in_region Fake.example_platform Fake.shot
           "images/stage105.png" [1%Q] (3 # 4, 1 # 2)%Q (4 # 5)%Q
           Fake.example_start (19 # 20)%Q 100 200 50 30);
    by vm_compute.
Defined.

Lemma no_retries_no_attempt_witness :
  run_click_task demo Fake.shot "images/stage105.png" [1%Q]
    (3 # 4, 1 # 2)%Q (4 # 5)%Q 0 2 Fake.start
  = Returned false (captured demo Fake.shot Fake.start).
Proof.
  apply (no_retries_no_attempt demo Fake.shot "images/stage105.png" [1%Q]
           (3 # 4, 1 # 2)%Q (4 # 5)%Q 0 2 Fake.start).
  reflexivity.
Defined.

(** The team template is looked for while the stage list is on screen. *)
Lemma first_miss_dooms_task_witness :
  run_click_task demo Fake.shot "images/teamselect.png" [1%Q]
    (9 # 10, 23 # 25)%Q (4 # 5)%Q 3 3 Fake.start
  = Returned false
      (after (captured demo Fake.shot Fake.start)
         (missed_attempts (Z.to_nat 3) 0 3)).
Proof.
  apply (first_miss_dooms_task demo Fake.shot "images/teamselect.png" [1%Q]
           (9 # 10, 23 # 25)%Q (4 # 5)%Q 3 3 Fake.start 0%Q
           (Some (0, 0, 2, 2))).
  - by vm_compute.
  - right. reflexivity.
Defined.

Lemma clicks_bounded_by_retries_witness :
  exists later,
    trace (Fake.stage_done demo) = trace Fake.start ++ later /\
    (click_count later <= Z.to_nat 3)%nat /\
    (true = true -> (1 <= click_count later)%nat).
Proof.
  apply (clicks_bounded_by_retries demo Fake.shot "images/stage105.png"
           [1%Q] (3 # 4, 1 # 2)%Q (4 # 5)%Q 3 2 Fake.start true
           (Fake.stage_done demo)).
  by vm_compute.
Defined.

Lemma click_task_writes_only_capture_witness :
  exists later,
    trace (Fake.stage_done demo) = trace Fake.start ++ later /\
    forall p, Save p ∈ later -> p = Fake.shot.
Proof.
  apply (click_task_writes_only_capture demo Fake.shot "images/stage105.png"
           [1%Q] (3 # 4, 1 # 2)%Q (4 # 5)%Q 3 2 Fake.start
           (Fake.stage_done demo)).
  left. exists true. by vm_compute.
Defined.


Lemma wait_battle_polls_bounded_witness :
  exists (n : nat) (w' : World),
    (n <= 12)%nat /\
    ((wait_battle demo 12 Fake.shot "images/success.png" [1%Q] (4 # 5)%Q
        (5 * 1000000 + 120 * 1000000) (Fake.battle_begun demo)
      = Returned false w' /\
      trace w' = trace (Fake.battle_begun demo) ++ polls n Fake.shot) \/
     (wait_battle demo 12 Fake.shot "images/success.png" [1%Q] (4 # 5)%Q
        (5 * 1000000 + 120 * 1000000) (Fake.battle_begun demo)
      = Returned true w' /\
      (1 <= n)%nat /\
      trace w' = trace (Fake.battle_begun demo) ++ polls n Fake.shot ++
                 [Print MsgBattleSucceeded]) \/
     (wait_battle demo 12 Fake.shot "images/success.png" [1%Q] (4 # 5)%Q
        (5 * 1000000 + 120 * 1000000) (Fake.battle_begun demo)
      = Crashed w' /\
      (1 <= n)%nat /\
      trace w' = trace (Fake.battle_begun demo) ++ polls n Fake.shot)).
Proof.
  apply (wait_battle_polls_bounded demo Fake.shot "images/success.png" [1%Q]
           (4 # 5)%Q (5 * 1000000 + 120 * 1000000) 12
           (fake_clock_advances 1 25) (Fake.battle_begun demo) 12).
  - by vm_compute.
  - lia.
Defined.

Lemma full_round_starts_next_round_witness :
  run_zhulu_105_task demo 4 "images" "screenshot.png" (4 # 5)%Q [1%Q] 3 120
    Fake.start
  = run_zhulu_105_task demo 3 "images" "screenshot.png" (4 # 5)%Q [1%Q] 3 120
      (after demo_returned [Print MsgNextLoop]).
Proof.
  apply (full_round_starts_next_round demo 3 "images" "screenshot.png"
           (4 # 5)%Q [1%Q] 3 120 Fake.start (Fake.stage_done demo)
           (Fake.team_done demo) demo_battle_won demo_dismissed demo_returned
           0%Q (Some (0, 0, 2, 2)));
    by vm_compute.
Defined.

Lemma stage_not_found_ends_scenario_witness :
  run_zhulu_105_task demo 1 "images" "screenshot.png" (4 # 5)%Q [1%Q] 3 120
    {| files := Fake.disk; trace := [Click] |}
  = Returned tt
      (after (captured demo "images/screenshot.png"
                {| files := Fake.disk; trace := [Click] |})
         (missed_attempts (Z.to_nat 3) 0 2 ++ [Print MsgEnterTeamFailed])) /\
  forall e,
    e ∈ [Screenshot; Save "images/screenshot.png"] ++
        missed_attempts (Z.to_nat 3) 0 2 ++ [Print MsgEnterTeamFailed] ->
    is_pointer e = false.
Proof.
  apply (stage_not_found_ends_scenario demo 0 "images" "screenshot.png"
           (4 # 5)%Q [1%Q] 3 120 {| files := Fake.disk; trace := [Click] |}
           0%Q (Some (0, 0, 2, 2))).
  - by vm_compute.
  - right. reflexivity.
Defined.


(** ** Errors and the end of the scenario *)

Lemma bind_returned {A B : Type} (c : M A) (k : A -> M B) (w : World)
    (b : B) (w' : World) :
  bind c k w = Returned b w' ->
  exists a w1, c w = Returned a w1 /\ k a w1 = Returned b w'.
Proof.
  unfold bind. destruct (c w) as [a w1 | w1 |]; [| discriminate..].
  intros Hk. by exists a, w1.
Qed.

(** X17.  A template file that cannot be read is not reported as "not found":
    with at least one scale and at least one attempt allowed, the click task
    ends with the error of OpenCV right after its first capture, before any
    pointer move, print or wait. *)
Theorem unreadable_template_crashes_task (P : Platform)
    (image_path template_path : string) (scale : Q) (scales : list Q)
    (click_offset : Q * Q) (threshold : Q) (retry_times delay : Z)
    (w : World) :
  template_path <> image_path ->
  files w !! template_path = None ->
  0 < retry_times ->
  run_click_task P image_path template_path (scale :: scales) click_offset
    threshold retry_times delay w
  = Crashed (captured P image_path w).
Proof.
  intros Hpath Hmissing Htimes.
  unfold run_click_task, run_click_task_counted, bind, capture_to.
  destruct (Z.to_nat retry_times) as [| fuel] eqn:Hfuel; [lia |].
  rewrite (run_click_loop_crash P image_path template_path (scale :: scales)
             click_offset threshold retry_times delay fuel 0
             (captured P image_path w) (captured P image_path w) Htimes);
    [done |].
  unfold locate_and_click, bind, on_files, multi_scale_template_matching.
  simpl. rewrite lookup_insert_eq, lookup_insert_ne, Hmissing by done.
  reflexivity.
Qed.

Ltac listed :=
  repeat first [apply list_elem_of_here | apply list_elem_of_further].

(** X18.  Whenever the scenario returns, the last thing it did was to print
    the reason: that a click task failed (one message for each of the four),
    that there is no stamina, or that the battle failed. *)
Theorem scenario_returns_with_reason (P : Platform) (fuel : nat)
    (image_path game_screenshot_path : string) (confidence_threshold : Q)
    (scales : list Q) (retry_times max_battle_time : Z) :
  forall (w w' : World),
    run_zhulu_105_task P fuel image_path game_screenshot_path
      confidence_threshold scales retry_times max_battle_time w
      = Returned tt w' ->
    exists before reason,
      trace w' = before ++ [Print reason] /\ reason ∈ final_messages.
Proof.
  assert (Hemit : forall (e : Message) (w0 w1 : World),
             emit (Print e) w0 = Returned tt w1 ->
             e ∈ final_messages ->
             exists before reason,
               trace w1 = before ++ [Print reason] /\
               reason ∈ final_messages).
  { intros e w0 w1 He Hin. injection He as <-. by exists (trace w0), e. }
  induction fuel as [| fuel IH]; intros w w' Hrun; [discriminate |].
  cbn [run_zhulu_105_task] in Hrun.
  apply bind_returned in Hrun as ([|] & w1 & _ & Hrun); cbn [negb] in Hrun;
    [| eapply Hemit; [exact Hrun | listed]].
  apply bind_returned in Hrun as (_ & w1' & _ & Hrun).
  apply bind_returned in Hrun as ([|] & w2 & _ & Hrun); cbn [negb] in Hrun;
    [| eapply Hemit; [exact Hrun | listed]].
  apply bind_returned in Hrun as (_ & w2' & _ & Hrun).
  apply bind_returned in Hrun as ([c m] & w3 & _ & Hrun).
  destruct (Qgeb c confidence_threshold);
    [eapply Hemit; [exact Hrun | listed] |].
  apply bind_returned in Hrun as (_ & w3' & _ & Hrun).
  apply bind_returned in Hrun as (t & w3'' & _ & Hrun).
  apply bind_returned in Hrun as ([|] & w4 & _ & Hrun); cbn [negb] in Hrun;
    [| eapply Hemit; [exact Hrun | listed]].
  apply bind_returned in Hrun as ([|] & w5 & _ & Hrun); cbn [negb] in Hrun;
    [| eapply Hemit; [exact Hrun | listed]].
  apply bind_returned in Hrun as ([|] & w6 & _ & Hrun); cbn [negb] in Hrun;
    [| eapply Hemit; [exact Hrun | listed]].
  apply bind_returned in Hrun as (_ & w6' & _ & Hrun).
  by apply IH in Hrun.
Qed.

Lemma unreadable_template_crashes_task_witness :
  run_click_task demo Fake.shot "images/missing.png" [1%Q]
    (1 # 2, 1 # 2)%Q (4 # 5)%Q 3 2 Fake.start
  = Crashed (captured demo Fake.shot Fake.start).
Proof.
  apply (unreadable_template_crashes_task demo Fake.shot "images/missing.png"
           1%Q [] (1 # 2, 1 # 2)%Q (4 # 5)%Q 3 2 Fake.start);
    by vm_compute.
Defined.

Lemma scenario_returns_with_reason_witness :
  exists before reason,
    trace (after (Fake.team_done (Fake.platform 0 1000))
             [MoveTo 4 4; Print MsgNoStamina])
    = before ++ [Print reason] /\
    reason ∈ final_messages.
Proof.
  apply (scenario_returns_with_reason (Fake.platform 0 1000) 1 "images"
           "screenshot.png" (4 # 5)%Q [1%Q] 3 120 Fake.start).
  by vm_compute.
Defined.
